(** * HDE networking library: socket layering and the fixed-response test server

    A shallow embedding of
      - Networking/Sockets/SimpleSocket.{hpp,cpp}
      - Networking/Sockets/BindingSocket.{hpp,cpp}
      - Networking/Sockets/ListeningSocket.{hpp,cpp}
      - Networking/Servers/SimpleServer.{hpp,cpp}
      - Networking/Servers/TestServer.{hpp,cpp}

    The C++ code talks to the operating system and to the console.  Every
    such call is recorded as an [Event] of a trace, in program order, and the
    value the operating system returns is read from an environment record
    ([SetupEnv] for the start-up calls, [ConnEnv] for the calls of one loop
    iteration).  [exit] and undefined behaviour end the run: they are
    outcomes of the process monad [M]. *)

From Stdlib Require Import ZArith Lia List String Ascii.
From Stdlib.Strings Require Import Byte.
From stdpp Require Import base option list gmap.

Import ListNotations.
Local Open Scope Z_scope.

(** ** Constants of the system headers

    These come from <sys/socket.h>, <netinet/in.h> and <stdlib.h>, which are
    not part of the repository; the values are those of Linux.  The
    development only ever refers to them by name. *)

Definition AF_INET : Z := 2.

Definition SOCK_STREAM : Z := 1.

Definition INADDR_ANY : Z := 0.

Definition SOL_SOCKET : Z := 1.

Definition SO_RCVTIMEO : Z := 20.

Definition SHUT_RDWR : Z := 2.

Definition EXIT_FAILURE : Z := 1.

(** ** Byte order *)

Inductive Endianness := LittleEndian | BigEndian.

Definition bswap16 (x : Z) : Z :=
  Z.lor (Z.shiftl (Z.land x 255) 8) (Z.land (Z.shiftr x 8) 255).

Definition bswap32 (x : Z) : Z :=
  Z.lor (Z.lor (Z.shiftl (Z.land x 255) 24)
               (Z.shiftl (Z.land (Z.shiftr x 8) 255) 16))
        (Z.lor (Z.shiftl (Z.land (Z.shiftr x 16) 255) 8)
               (Z.land (Z.shiftr x 24) 255)).

(** [htons] takes a [uint16_t]: an [int] argument is first reduced modulo
    2^16.  Likewise [htonl] takes a [uint32_t]. *)
Definition htons (host : Endianness) (hostshort : Z) : Z :=
  let x := hostshort mod 65536 in
  match host with
  | BigEndian => x
  | LittleEndian => bswap16 x
  end.

Definition htonl (host : Endianness) (hostlong : Z) : Z :=
  let x := hostlong mod 4294967296 in
  match host with
  | BigEndian => x
  | LittleEndian => bswap32 x
  end.

(** The bytes a 16-bit (32-bit) value occupies in memory, lowest address
    first. *)
Definition mem_u16 (host : Endianness) (x : Z) : list Z :=
  match host with
  | BigEndian => [Z.land (Z.shiftr x 8) 255; Z.land x 255]
  | LittleEndian => [Z.land x 255; Z.land (Z.shiftr x 8) 255]
  end.

Definition mem_u32 (host : Endianness) (x : Z) : list Z :=
  let b k := Z.land (Z.shiftr x (8 * k)) 255 in
  match host with
  | BigEndian => [b 3; b 2; b 1; b 0]
  | LittleEndian => [b 0; b 1; b 2; b 3]
  end.

(** ** Data of the system interface *)

Record sockaddr_in := mk_sockaddr_in {
  sin_family : Z;
  sin_port : Z;
  sin_addr : Z;            (* sin_addr.s_addr *)
  sin_zero : list byte     (* padding, never written by the library *)
}.

Record timeval := mk_timeval { tv_sec : Z; tv_usec : Z }.

(** The pieces of a line written with [std::cout <<] or [std::cerr <<]. *)
Inductive Out :=
| OStr (s : string)
| OInt (z : Z)
| OBytes (b : list byte)
| OStrerror                (* strerror(errno) *)
| OEndl.

Inductive Event :=
| EvSocket (domain service protocol ret : Z)
| EvBind (sock : Z) (addr : sockaddr_in) (ret : Z)
| EvListen (sock backlog ret : Z)
| EvAccept (sock : Z) (addr : sockaddr_in) (ret : Z)
| EvSetsockopt (fd level optname : Z) (tv : timeval)
| EvRecv (fd : Z) (buf : list byte) (len flags ret : Z)
| EvSend (fd : Z) (data : list byte) (len flags ret : Z)
| EvShutdown (fd how : Z)
| EvClose (fd : Z)
| EvPerror (msg : string)
| EvPrintfHex (b : byte)   (* printf("%02x ", b) *)
| EvCout (line : list Out)
| EvCerr (line : list Out).

(** ** The process monad: heap, trace, and the ways a run ends *)

Inductive FaultKind :=
| OutOfBounds (index : Z)  (* access outside a fixed-size array *)
| BadPointer (p : Z).      (* dereference of a pointer to no object *)

Inductive Outcome (A : Type) :=
| Ret (a : A)
| Exit (code : Z)
| Fault (f : FaultKind).
Arguments Ret {A} a.
Arguments Exit {A} code.
Arguments Fault {A} f.

(** ** Objects of the socket layering *)

Record SimpleSocket := mk_SimpleSocket {
  address : sockaddr_in;
  sock : Z;
  connection : Z
}.

Record BindingSocket := mk_BindingSocket {
  bs_base : SimpleSocket;
  binding : Z
}.

Record ListeningSocket := mk_ListeningSocket {
  ls_base : BindingSocket;
  backlog : Z;
  listening : Z
}.

(** Objects made with [new]: the only such object is the listening socket
    of a server. *)
Definition Heap := gmap Z ListeningSocket.

Definition M (A : Type) : Type := Heap -> list Event * Outcome (A * Heap).

Definition ret {A} (a : A) : M A := fun h => ([], Ret (a, h)).

Definition bind {A B} (m : M A) (k : A -> M B) : M B :=
  fun h =>
    match m h with
    | (t1, Ret (a, h1)) => let '(t2, o) := k a h1 in (t1 ++ t2, o)
    | (t1, Exit c) => (t1, Exit c)
    | (t1, Fault f) => (t1, Fault f)
    end.

Declare Scope proc_scope.
Delimit Scope proc_scope with proc.
Notation "x <- m ;; k" := (bind m (fun x => k))
  (at level 100, m at next level, right associativity) : proc_scope.

Notation "m ;; k" := (bind m (fun _ => k))
  (at level 100, right associativity) : proc_scope.

Local Open Scope proc_scope.

Definition emit (e : Event) : M unit := fun h => ([e], Ret (tt, h)).

Definition exit {A} (code : Z) : M A := fun _ => ([], Exit code).

Definition fault {A} (f : FaultKind) : M A := fun _ => ([], Fault f).

Definition trace {A} (r : list Event * Outcome A) : list Event := fst r.

Definition outcome {A} (r : list Event * Outcome A) : Outcome A := snd r.

(** [new T(...)]: the constructed object is placed at the address the
    allocator returned. *)
Definition heap_new (p : Z) (o : ListeningSocket) : M Z :=
  fun h => ([], Ret (p, <[p := o]> h)).

(** [p->...]: read the object behind a pointer. *)
Definition deref (p : Z) : M ListeningSocket :=
  fun h =>
    match h !! p with
    | Some o => ([], Ret (o, h))
    | None => ([], Fault (BadPointer p))
    end.

(** ** What the operating system answers during start-up

    [raw_storage] is the content of the fresh storage the [new] expression
    constructs the listening socket in: a constructor that does not assign a
    member leaves the member with the value found there. *)
Record SetupEnv := mk_SetupEnv {
  host : Endianness;
  socket_ret : Z;
  bind_ret : Z;
  listen_ret : Z;
  new_ret : Z;
  raw_storage : ListeningSocket;
  raw_new_socket : Z
}.

(** ** SimpleSocket.cpp *)

Definition perror (msg : string) : M unit := emit (EvPerror msg).

Definition test_connection (item_to_test : Z) : M unit :=
  if item_to_test <? 0 then
    perror "Failed to connect!" ;;
    exit EXIT_FAILURE
  else ret tt.

Definition sys_socket (os : SetupEnv) (domain service protocol : Z) : M Z :=
  emit (EvSocket domain service protocol (socket_ret os)) ;;
  ret (socket_ret os).

Definition SimpleSocket_ctor (os : SetupEnv) (this : SimpleSocket)
    (domain service protocol port interface : Z) : M SimpleSocket :=
  let a := address this in
  let a := mk_sockaddr_in (domain mod 65536) (sin_port a) (sin_addr a) (sin_zero a) in
  let a := mk_sockaddr_in (sin_family a) (htons (host os) port) (sin_addr a) (sin_zero a) in
  let a := mk_sockaddr_in (sin_family a) (sin_port a) (htonl (host os) interface) (sin_zero a) in
  s <- sys_socket os domain service protocol ;;
  let this := mk_SimpleSocket a s (connection this) in
  test_connection (sock this) ;;
  ret this.

Definition get_address (this : SimpleSocket) : sockaddr_in := address this.

Definition get_sock (this : SimpleSocket) : Z := sock this.

Definition set_connection (con : Z) (this : SimpleSocket) : SimpleSocket :=
  mk_SimpleSocket (address this) (sock this) con.

(** ** BindingSocket.cpp *)

(** [BindingSocket::connect_to_nw]: the call of [bind]. *)
Definition connect_to_nw (os : SetupEnv) (sock : Z) (address : sockaddr_in) : M Z :=
  emit (EvBind sock address (bind_ret os)) ;;
  ret (bind_ret os).

Definition BindingSocket_ctor (os : SetupEnv) (this : BindingSocket)
    (domain service protocol port interface : Z) : M BindingSocket :=
  base <- SimpleSocket_ctor os (bs_base this) domain service protocol port interface ;;
  let this := mk_BindingSocket base (binding this) in
  r <- connect_to_nw os (get_sock (bs_base this)) (get_address (bs_base this)) ;;
  let this := mk_BindingSocket (set_connection r (bs_base this)) (binding this) in
  test_connection (binding this) ;;
  ret this.

Definition get_binding (this : BindingSocket) : Z := binding this.

(** ** ListeningSocket.cpp *)

Definition start_listening (os : SetupEnv) (this : ListeningSocket) : M ListeningSocket :=
  emit (EvListen (get_sock (bs_base (ls_base this))) (backlog this) (listen_ret os)) ;;
  ret (mk_ListeningSocket (ls_base this) (backlog this) (listen_ret os)).

Definition ListeningSocket_ctor (os : SetupEnv) (this : ListeningSocket)
    (domain service protocol port interface bcklg : Z) : M ListeningSocket :=
  base <- BindingSocket_ctor os (ls_base this) domain service protocol port interface ;;
  let this := mk_ListeningSocket base (backlog this) (listening this) in
  let this := mk_ListeningSocket (ls_base this) bcklg (listening this) in
  this <- start_listening os this ;;
  test_connection (listening this) ;;
  ret this.

Definition get_listening (this : ListeningSocket) : Z := listening this.

Definition get_backlog (this : ListeningSocket) : Z := backlog this.

(** ** SimpleServer.cpp *)

Record SimpleServer := mk_SimpleServer {
  socket : Z               (* ListeningSocket *socket *)
}.

Definition SimpleServer_ctor (os : SetupEnv)
    (domain service protocol port interface bcklg : Z) : M SimpleServer :=
  o <- ListeningSocket_ctor os (raw_storage os) domain service protocol port interface bcklg ;;
  p <- heap_new (new_ret os) o ;;
  ret (mk_SimpleServer p).

Definition get_socket (this : SimpleServer) : Z := socket this.

(** ** TestServer.hpp / TestServer.cpp *)

(** [char buffer[30000]]: the capacity of the receive buffer, which is
    [sizeof(buffer)]. *)
Definition BUFFER_SIZE : Z := 30000.

Record TestServer := mk_TestServer {
  ts_base : SimpleServer;
  buffer : list byte;
  new_socket : Z
}.

Definition set_buffer (b : list byte) (this : TestServer) : TestServer :=
  mk_TestServer (ts_base this) b (new_socket this).

Definition set_new_socket (fd : Z) (this : TestServer) : TestServer :=
  mk_TestServer (ts_base this) (buffer this) fd.

(** What the peer and the operating system do during one loop iteration. *)
Inductive RecvResult :=
| RecvError                     (* recv returns -1 *)
| RecvData (data : list byte).  (* the bytes available; none: peer closed *)

Record ConnEnv := mk_ConnEnv {
  accept_ret : Z;
  recv_res : RecvResult;
  send_ret : Z
}.

Definition cout (line : list Out) : M unit := emit (EvCout line).

Definition cerr (line : list Out) : M unit := emit (EvCerr line).

Fixpoint emit_all (es : list Event) : M unit :=
  match es with
  | [] => ret tt
  | e :: es' => emit e ;; emit_all es'
  end.

(** [memset(a, c, n)] on an array: the first [n] bytes become [c]. *)
Definition memset (a : list byte) (c : byte) (n : Z) : list byte :=
  replicate (Z.to_nat n `min` length a) c ++ drop (Z.to_nat n) a.

(** [a[i] = v] on a fixed-size array; an index outside the array is
    undefined behaviour.  The model ends the run there and says nothing of
    what the compiled program does next, where the byte lands in whatever
    lies behind the array. *)
Definition array_store (a : list byte) (i : Z) (v : byte) : M (list byte) :=
  if (0 <=? i) && (i <? Z.of_nat (length a)) then ret (<[Z.to_nat i := v]> a)
  else fault (OutOfBounds i).

(** [strlen(a)]: the index of the first NUL byte; [None] when the array
    holds none, in which case [strlen] reads past its end. *)
Fixpoint strlen (a : list byte) : option nat :=
  match a with
  | [] => None
  | b :: a' => if Byte.eqb b x00 then Some 0%nat else S <$> strlen a'
  end.

Definition c_strlen (a : list byte) : M Z :=
  match strlen a with
  | Some n => ret (Z.of_nat n)
  | None => fault (OutOfBounds (Z.of_nat (length a)))
  end.

Definition sys_accept (c : ConnEnv) (sock : Z) (addr : sockaddr_in) : M Z :=
  emit (EvAccept sock addr (accept_ret c)) ;;
  ret (accept_ret c).

(** [recv(fd, buf, len, flags)]: at most [len] of the available bytes are
    copied to the front of [buf]; the count is returned. *)
Definition sys_recv (c : ConnEnv) (fd : Z) (buf : list byte) (len flags : Z)
  : M (Z * list byte) :=
  match recv_res c with
  | RecvError =>
      emit (EvRecv fd buf len flags (-1)) ;;
      ret (-1, buf)
  | RecvData data =>
      let got := take (Z.to_nat len) data in
      let n := Z.of_nat (length got) in
      emit (EvRecv fd buf len flags n) ;;
      ret (n, got ++ drop (length got) buf)
  end.

Definition sys_send (c : ConnEnv) (fd : Z) (data : list byte) (len flags : Z) : M Z :=
  emit (EvSend fd data len flags (send_ret c)) ;;
  ret (send_ret c).

Definition sys_close (fd : Z) : M unit := emit (EvClose fd).

Definition sys_shutdown (fd how : Z) : M unit := emit (EvShutdown fd how).

Definition acceptor (c : ConnEnv) (this : TestServer) : M TestServer :=
  ls <- deref (get_socket (ts_base this)) ;;
  let address := get_address (bs_base (ls_base ls)) in
  cout [OStr "Attempting to accept connection..."; OEndl] ;;
  ls <- deref (get_socket (ts_base this)) ;;
  r <- sys_accept c (get_sock (bs_base (ls_base ls))) address ;;
  let this := set_new_socket r this in
  if new_socket this <? 0 then
    cerr [OStr "Accept failed with error: "; OStrerror; OEndl] ;;
    ret this
  else
    cout [OStr "Connection accepted on socket: "; OInt (new_socket this); OEndl] ;;
    let this := set_buffer (memset (buffer this) x00 BUFFER_SIZE) this in
    let tv := mk_timeval 5 0 in
    emit (EvSetsockopt (new_socket this) SOL_SOCKET SO_RCVTIMEO tv) ;;
    cout [OStr "Reading from socket..."; OEndl] ;;
    rd <- sys_recv c (new_socket this) (buffer this) 30000 0 ;;
    let bytes_read := fst rd in
    let this := set_buffer (snd rd) this in
    if bytes_read <? 0 then
      cerr [OStr "Read failed with error: "; OStrerror; OEndl] ;;
      sys_close (new_socket this) ;;
      ret this
    else if bytes_read =? 0 then
      cerr [OStr "Client closed connection"; OEndl] ;;
      sys_close (new_socket this) ;;
      ret this
    else
      cout [OStr "Bytes read: "; OInt bytes_read; OEndl] ;;
      b <- array_store (buffer this) bytes_read x00 ;;
      let this := set_buffer b this in
      cout [OStr "Raw received data (hex):"; OEndl] ;;
      emit_all (map EvPrintfHex (take (Z.to_nat (Z.min bytes_read 50)) (buffer this))) ;;
      cout [OEndl] ;;
      ret this.

Definition LF : string := String "010" EmptyString.

Definition handler (this : TestServer) : M TestServer :=
  n <- c_strlen (buffer this) ;;
  if 0 <? n then
    n' <- c_strlen (buffer this) ;;
    cout [OStr (LF ++ "Received Request (")%string; OInt n'; OStr " bytes):"; OEndl] ;;
    cout [OStr "--- Begin Request ---"; OEndl] ;;
    cout [OBytes (take (Z.to_nat n') (buffer this)); OEndl] ;;
    cout [OStr "--- End Request ---"; OEndl] ;;
    ret this
  else
    cout [OStr "Empty request received"; OEndl] ;;
    ret this.

Definition CRLF : string := String "013" (String "010" EmptyString).

Definition response : string :=
  ("HTTP/1.1 200 OK" ++ CRLF ++
   "Content-Type: text/plain" ++ CRLF ++
   "Connection: close" ++ CRLF ++
   "Content-Length: 19" ++ CRLF ++
   CRLF ++
   "Hello from Server!" ++ CRLF)%string.

Definition responder (c : ConnEnv) (this : TestServer) : M TestServer :=
  let data := list_byte_of_string response in
  len <- c_strlen (data ++ [x00]) ;;
  bytes_sent <- sys_send c (new_socket this) data len 0 ;;
  (if bytes_sent <? 0 then
     cerr [OStr "Failed to send response: "; OStrerror; OEndl]
   else
     cout [OStr "Sent "; OInt bytes_sent; OStr " bytes as response"; OEndl]) ;;
  sys_shutdown (new_socket this) SHUT_RDWR ;;
  sys_close (new_socket this) ;;
  ret this.

(** One pass through the body of the [while(true)] loop of [launch]. *)
Definition launch_body (c : ConnEnv) (this : TestServer) : M TestServer :=
  cout [OStr (LF ++ "=== Waiting for new connection ====")%string; OEndl] ;;
  this <- acceptor c this ;;
  this <- handler this ;;
  this <- responder c this ;;
  cout [OStr "=== Connection handled ===="; OEndl] ;;
  ret this.

(** [launch] never returns.  The model runs the loop once for each entry of
    [conns], the connection attempts the environment makes, and yields the
    state the next iteration would start from: the traces of [launch] are the
    finite prefixes of the run, cut between two iterations. *)
Fixpoint launch (conns : list ConnEnv) (this : TestServer) : M TestServer :=
  match conns with
  | [] => ret this
  | c :: conns' =>
      this <- launch_body c this ;;
      launch conns' this
  end.

Definition TestServer_ctor (os : SetupEnv) (conns : list ConnEnv) : M TestServer :=
  base <- SimpleServer_ctor os AF_INET SOCK_STREAM 0 3000 INADDR_ANY 10 ;;
  let this := mk_TestServer base (replicate (Z.to_nat BUFFER_SIZE) x00) (raw_new_socket os) in
  let this := set_buffer (memset (buffer this) x00 BUFFER_SIZE) this in
  launch conns this.

(** The whole process: [TestServer t;] in a fresh address space. *)
Definition run (os : SetupEnv) (conns : list ConnEnv) : list Event * Outcome (TestServer * Heap) :=
  TestServer_ctor os conns ∅.

(** * Vocabulary of the statements *)

(** Symbolic execution: the events of the first part of a sequence are put
    in front of the run of the rest. *)
Definition prepend {A} (t : list Event) (r : list Event * Outcome A)
  : list Event * Outcome A :=
  (t ++ fst r, snd r).

(** ** A weakest-precondition predicate

    [sat E Q r]: every event of the run [r] satisfies [E] and, if the run
    returns, the result and the heap satisfy [Q]. *)

Definition sat {A} (E : Event -> Prop) (Q : A -> Heap -> Prop)
    (r : list Event * Outcome (A * Heap)) : Prop :=
  Forall E (trace r) /\
  match outcome r with
  | Ret (a, h) => Q a h
  | _ => True
  end.

(** ** Start-up: its events and the object it leaves *)

Definition failed_to_connect : Event := EvPerror "Failed to connect!".

(** The address structure the [SimpleSocket] constructor fills in. *)
Definition ctor_address (os : SetupEnv) (this : SimpleSocket) (domain port interface : Z)
  : sockaddr_in :=
  mk_sockaddr_in (domain mod 65536) (htons (host os) port) (htonl (host os) interface)
                 (sin_zero (address this)).

(** Whether start-up gets through all three fatal checks. *)
Definition setup_passes (os : SetupEnv) : bool :=
  negb (socket_ret os <? 0) && negb (binding (ls_base (raw_storage os)) <? 0)
  && negb (listen_ret os <? 0).

(** The object [new ListeningSocket(...)] leaves on the heap. *)
Definition listening_socket_of (os : SetupEnv) (domain port interface bcklg : Z)
  : ListeningSocket :=
  mk_ListeningSocket
    (mk_BindingSocket
       (mk_SimpleSocket
          (ctor_address os (bs_base (ls_base (raw_storage os))) domain port interface)
          (socket_ret os) (bind_ret os))
       (binding (ls_base (raw_storage os))))
    bcklg (listen_ret os).

Definition setup_trace (os : SetupEnv) (domain service protocol port interface bcklg : Z)
  : list Event :=
  [EvSocket domain service protocol (socket_ret os);
   EvBind (socket_ret os)
          (ctor_address os (bs_base (ls_base (raw_storage os))) domain port interface)
          (bind_ret os);
   EvListen (socket_ret os) bcklg (listen_ret os)].

(** ** The events of the respond stage *)

Definition response_bytes : list byte := list_byte_of_string response.

Definition sent_line (bytes_sent : Z) : Event :=
  if bytes_sent <? 0 then EvCerr [OStr "Failed to send response: "; OStrerror; OEndl]
  else EvCout [OStr "Sent "; OInt bytes_sent; OStr " bytes as response"; OEndl].

Definition respond_trace (c : ConnEnv) (fd : Z) : list Event :=
  [EvSend fd response_bytes 104 0 (send_ret c);
   sent_line (send_ret c);
   EvShutdown fd SHUT_RDWR;
   EvClose fd].

(** ** The events of the handle stage *)

Definition handle_trace (buf : list byte) (n : nat) : list Event :=
  if 0 <? Z.of_nat n then
    [EvCout [OStr (LF ++ "Received Request (")%string; OInt (Z.of_nat n);
             OStr " bytes):"; OEndl];
     EvCout [OStr "--- Begin Request ---"; OEndl];
     EvCout [OBytes (take n buf); OEndl];
     EvCout [OStr "--- End Request ---"; OEndl]]
  else [EvCout [OStr "Empty request received"; OEndl]].

(** ** The events of the accept stage *)

Definition recv_count (c : ConnEnv) (len : Z) : Z :=
  match recv_res c with
  | RecvError => -1
  | RecvData data => Z.of_nat (length (take (Z.to_nat len) data))
  end.

Definition recv_buffer (c : ConnEnv) (len : Z) (buf : list byte) : list byte :=
  match recv_res c with
  | RecvError => buf
  | RecvData data =>
      take (Z.to_nat len) data ++ drop (length (take (Z.to_nat len) data)) buf
  end.

Definition accept_events (ls : ListeningSocket) (c : ConnEnv) : list Event :=
  [EvCout [OStr "Attempting to accept connection..."; OEndl];
   EvAccept (sock (bs_base (ls_base ls))) (address (bs_base (ls_base ls))) (accept_ret c)].

(** What follows a successful [accept], up to and including the read. *)
Definition read_events (c : ConnEnv) (buf : list byte) : list Event :=
  [EvCout [OStr "Connection accepted on socket: "; OInt (accept_ret c); OEndl];
   EvSetsockopt (accept_ret c) SOL_SOCKET SO_RCVTIMEO (mk_timeval 5 0);
   EvCout [OStr "Reading from socket..."; OEndl];
   EvRecv (accept_ret c) (memset buf x00 BUFFER_SIZE) 30000 0 (recv_count c 30000)].

Definition hex_events (n : Z) (buf : list byte) : list Event :=
  [EvCout [OStr "Bytes read: "; OInt n; OEndl];
   EvCout [OStr "Raw received data (hex):"; OEndl]]
  ++ map EvPrintfHex (take (Z.to_nat (Z.min n 50)) buf)
  ++ [EvCout [OEndl]].

(** ** The invariant of the loop

    The receive buffer has its declared size and holds a NUL byte, and the
    server's pointer refers to an object on the heap. *)

Definition wf (this : TestServer) (h : Heap) : Prop :=
  length (buffer this) = Z.to_nat BUFFER_SIZE /\
  is_Some (strlen (buffer this)) /\
  is_Some (h !! get_socket (ts_base this)).

Definition zeros : list byte := replicate (Z.to_nat BUFFER_SIZE) x00.

Definition waiting_line : Event :=
  EvCout [OStr (LF ++ "=== Waiting for new connection ====")%string; OEndl].

Definition handled_line : Event :=
  EvCout [OStr "=== Connection handled ===="; OEndl].

(** ** The state in which the loop is entered *)

Definition server_object (os : SetupEnv) : ListeningSocket :=
  listening_socket_of os AF_INET 3000 INADDR_ANY 10.

(** The state in which the constructor of [TestServer] enters [launch]. *)
Definition initial_server (os : SetupEnv) : TestServer :=
  mk_TestServer (mk_SimpleServer (new_ret os)) zeros (raw_new_socket os).

Definition initial_heap (os : SetupEnv) : Heap := {[ new_ret os := server_object os ]}.

Definition server_setup_trace (os : SetupEnv) : list Event :=
  setup_trace os AF_INET SOCK_STREAM 0 3000 INADDR_ANY 10.

(** * Concrete environments *)

(** Fresh storage that happens to hold zeros. *)
Definition raw_zero : ListeningSocket :=
  mk_ListeningSocket
    (mk_BindingSocket (mk_SimpleSocket (mk_sockaddr_in 0 0 0 []) 0 0) 0) 0 0.

(** Fresh storage whose [binding] slot happens to hold a negative number. *)
Definition raw_negative_binding : ListeningSocket :=
  mk_ListeningSocket
    (mk_BindingSocket (mk_SimpleSocket (mk_sockaddr_in 0 0 0 []) 0 0) (-7)) 0 0.

(** Every start-up call succeeds: descriptor 3, object at address 4096. *)
Definition os_ok : SetupEnv := mk_SetupEnv LittleEndian 3 0 0 4096 raw_zero 0.

(** [bind] fails (say, the port is in use); all else succeeds. *)
Definition os_bind_fails : SetupEnv := mk_SetupEnv LittleEndian 3 (-1) 0 4096 raw_zero 0.

(** [socket] fails. *)
Definition os_socket_fails : SetupEnv := mk_SetupEnv LittleEndian (-1) 0 0 4096 raw_zero 0.

(** [listen] fails. *)
Definition os_listen_fails : SetupEnv := mk_SetupEnv LittleEndian 3 0 (-1) 4096 raw_zero 0.

(** A client that connects and sends the two bytes "hi". *)
Definition conn_hi : ConnEnv := mk_ConnEnv 4 (RecvData [x68; x69]) 104.

(** A failed [accept]; the later [send] on the invalid descriptor fails too. *)
Definition conn_accept_fails : ConnEnv := mk_ConnEnv (-1) RecvError (-1).

(** A client that connects and closes without sending. *)
Definition conn_silent : ConnEnv := mk_ConnEnv 4 (RecvData []) (-1).

(** A client that sends a full buffer's worth of bytes. *)
Definition conn_full : ConnEnv :=
  mk_ConnEnv 4 (RecvData (replicate (Z.to_nat BUFFER_SIZE) x41)) 104.

(** The address every server of this program binds to on a little-endian host. *)
Definition addr_3000 : sockaddr_in := mk_sockaddr_in 2 47115 0 [].

Definition is_accept (e : Event) : bool :=
  match e with EvAccept _ _ _ => true | _ => false end.

(** ** Kinds of events *)

(** The events of the loop: no start-up call and no [perror] is among them;
    a read is issued on the cleared buffer, for 30000 bytes, and yields at
    most that many; the only socket option set is the 5-second receive
    timeout. *)
Definition loop_event (e : Event) : Prop :=
  match e with
  | EvSocket _ _ _ _ | EvBind _ _ _ | EvListen _ _ _ | EvPerror _ => False
  | EvRecv _ buf len flags ret => buf = zeros /\ len = 30000 /\ flags = 0 /\ ret <= BUFFER_SIZE
  | EvSetsockopt _ level optname tv =>
      level = SOL_SOCKET /\ optname = SO_RCVTIMEO /\ tv = mk_timeval 5 0
  | _ => True
  end.

Definition setup_event (e : Event) : Prop :=
  match e with
  | EvSocket _ _ _ _ | EvBind _ _ _ | EvListen _ _ _ | EvPerror _ => True
  | _ => False
  end.

(** ** The receive buffer *)

Definition recv_on_cleared_buffer (e : Event) : Prop :=
  match e with
  | EvRecv _ buf _ _ _ => buf = replicate (Z.to_nat BUFFER_SIZE) x00
  | _ => True
  end.

Definition buffer_with (data : list byte) : list byte :=
  data ++ replicate (Z.to_nat BUFFER_SIZE - length data) x00.

(** The server after it has served the client of [conn_hi]. *)
Definition server_after_hi : TestServer :=
  mk_TestServer (mk_SimpleServer 4096) (buffer_with [x68; x69]) 4.

(** ** Iterations that fail *)

Definition iteration_fails (c : ConnEnv) : Prop :=
  accept_ret c < 0 \/ recv_res c = RecvError \/ recv_res c = RecvData [].

Definition accept_failed_line : Event :=
  EvCerr [OStr "Accept failed with error: "; OStrerror; OEndl].

(** What the accept stage logs when the read brought nothing. *)
Definition read_failed_line (c : ConnEnv) : Event :=
  if recv_count c 30000 <? 0
  then EvCerr [OStr "Read failed with error: "; OStrerror; OEndl]
  else EvCerr [OStr "Client closed connection"; OEndl].

(** ** The response *)

(** The escape sequences of a C string literal that the response uses. *)
Fixpoint c_unescape (s : string) : list byte :=
  match s with
  | EmptyString => []
  | String "\" (String "r" s') => x0d :: c_unescape s'
  | String "\" (String "n" s') => x0a :: c_unescape s'
  | String a s' => byte_of_ascii a :: c_unescape s'
  end.

(** The response as the specification writes it, escapes and all. *)
Definition spec_response : list byte :=
  c_unescape
    "HTTP/1.1 200 OK\r\nContent-Type: text/plain\r\nConnection: close\r\nContent-Length: 19\r\n\r\nHello from Server!\r\n".

(** ** The listening socket of a server *)

Fixpoint count_socket_calls (t : list Event) : nat :=
  match t with
  | [] => 0
  | EvSocket _ _ _ _ :: t' => S (count_socket_calls t')
  | _ :: t' => count_socket_calls t'
  end.

(** ** The accept stage after a successful [accept] *)

Definition is_recv (e : Event) : bool :=
  match e with EvRecv _ _ _ _ _ => true | _ => false end.

Definition is_setsockopt (e : Event) : bool :=
  match e with EvSetsockopt _ _ _ _ => true | _ => false end.

Definition no_read_no_option (e : Event) : Prop :=
  is_recv e = false /\ is_setsockopt e = false.

(** The trace of the iteration that serves the client of [conn_hi]. *)
Definition trace_hi : list Event :=
  trace (launch_body conn_hi (initial_server os_ok) (initial_heap os_ok)).

(** * Vocabulary of the further properties *)

(** The bytes of [a] in front of its first NUL: what [std::cout << a]
    prints for a character array. *)
Fixpoint until_nul (a : list byte) : list byte :=
  match a with
  | [] => []
  | b :: a' => if Byte.eqb b x00 then [] else b :: until_nul a'
  end.

(** What the handle stage writes for a request whose bytes are [data]. *)
Definition request_lines (data : list byte) : list Event :=
  match until_nul data with
  | [] => [EvCout [OStr "Empty request received"; OEndl]]
  | text =>
      [EvCout [OStr (LF ++ "Received Request (")%string; OInt (Z.of_nat (length text));
               OStr " bytes):"; OEndl];
       EvCout [OStr "--- Begin Request ---"; OEndl];
       EvCout [OBytes text; OEndl];
       EvCout [OStr "--- End Request ---"; OEndl]]
  end.

(** How many events of a trace satisfy [p]. *)
Fixpoint count_events (p : Event -> bool) (t : list Event) : nat :=
  match t with
  | [] => 0
  | e :: t' => ((if p e then 1 else 0) + count_events p t')%nat
  end.

Definition is_send (e : Event) : bool :=
  match e with EvSend _ _ _ _ _ => true | _ => false end.
Definition is_close (e : Event) : bool :=
  match e with EvClose _ => true | _ => false end.


(** The events of one iteration that serves [c] through the listening
    socket [ls]: [accept] is called on the listening descriptor with the
    bound address; every call that takes a connection descriptor is given
    the one this [accept] returned; no start-up call occurs. *)
Definition conn_event (ls : ListeningSocket) (c : ConnEnv) (e : Event) : Prop :=
  match e with
  | EvAccept s a r =>
      s = sock (bs_base (ls_base ls)) /\ a = address (bs_base (ls_base ls)) /\ r = accept_ret c
  | EvSetsockopt fd _ _ _ | EvRecv fd _ _ _ _ | EvSend fd _ _ _ _
  | EvShutdown fd _ | EvClose fd => fd = accept_ret c
  | EvSocket _ _ _ _ | EvBind _ _ _ | EvListen _ _ _ | EvPerror _ => False
  | EvPrintfHex _ | EvCout _ | EvCerr _ => True
  end.

(** Two start-up environments that agree on the host, on what the system
    calls and the allocator return, and on two pieces of the fresh storage:
    the slot of [binding] and the padding of the address.  They may differ
    in everything else the storage held and in the initial content of
    [new_socket]. *)
Definition same_setup (os os' : SetupEnv) : Prop :=
  host os = host os' /\
  socket_ret os = socket_ret os' /\
  bind_ret os = bind_ret os' /\
  listen_ret os = listen_ret os' /\
  new_ret os = new_ret os' /\
  binding (ls_base (raw_storage os)) = binding (ls_base (raw_storage os')) /\
  sin_zero (address (bs_base (ls_base (raw_storage os))))
  = sin_zero (address (bs_base (ls_base (raw_storage os')))).

(** The start-up and accept calls go to the descriptor [sock] with the
    address [addr]. *)
Definition listening_call (sock : Z) (addr : sockaddr_in) (e : Event) : Prop :=
  match e with
  | EvBind s a _ | EvAccept s a _ => s = sock /\ a = addr
  | EvListen s _ _ => s = sock
  | _ => True
  end.

(** A connection whose read fills the whole buffer. *)
Definition full_read (c : ConnEnv) : Prop :=
  0 <= accept_ret c /\ recv_count c 30000 = BUFFER_SIZE.

(** Fresh storage full of other values, with 0 in the slot of [binding]. *)
Definition raw_other : ListeningSocket :=
  mk_ListeningSocket
    (mk_BindingSocket (mk_SimpleSocket (mk_sockaddr_in 77 78 79 []) 80 81) 0) 82 83.
Definition os_other : SetupEnv := mk_SetupEnv LittleEndian 3 0 0 4096 raw_other 99.

(** A client whose request has a NUL byte in the middle: "a", NUL, "b". *)
Definition conn_nul : ConnEnv := mk_ConnEnv 5 (RecvData [x61; x00; x62]) 104.

(** * Reasoning about runs *)

(** ** Equations of the monad *)

Lemma bind_Ret {A B} (m : M A) (k : A -> M B) h t a h1 :
  m h = (t, Ret (a, h1)) ->
  bind m k h = (t ++ trace (k a h1), outcome (k a h1)).
Proof.
  intros Hm. unfold bind, trace, outcome. rewrite Hm.
  destruct (k a h1) as [t2 o]. reflexivity.
Qed.

Lemma bind_Exit {A B} (m : M A) (k : A -> M B) h t code :
  m h = (t, Exit code) -> bind m k h = (t, Exit code).
Proof. intros Hm. unfold bind. rewrite Hm. reflexivity. Qed.

Lemma bind_Fault {A B} (m : M A) (k : A -> M B) h t f :
  m h = (t, Fault f) -> bind m k h = (t, Fault f).
Proof. intros Hm. unfold bind. rewrite Hm. reflexivity. Qed.

Lemma bind_ret_l {A B} (a : A) (k : A -> M B) h :
  bind (ret a) k h = k a h.
Proof. unfold bind, ret. destruct (k a h). reflexivity. Qed.

Lemma bind_emit {B} (e : Event) (k : unit -> M B) h :
  bind (emit e) k h = (e :: trace (k tt h), outcome (k tt h)).
Proof. unfold bind, emit, trace, outcome. destruct (k tt h). reflexivity. Qed.

Lemma bind_assoc {A B C} (m : M A) (k : A -> M B) (k' : B -> M C) h :
  bind (bind m k) k' h = bind m (fun a => bind (k a) k') h.
Proof.
  unfold bind. destruct (m h) as [t1 [[a h1]|c|f]]; try reflexivity.
  destruct (k a h1) as [t2 [[b h2]|c|f]]; try reflexivity.
  destruct (k' b h2) as [t3 o]. rewrite app_assoc. reflexivity.
Qed.

Lemma bind_prepend {A B} (m : M A) (k : A -> M B) h t a h1 :
  m h = (t, Ret (a, h1)) -> bind m k h = prepend t (k a h1).
Proof. intros Hm. unfold bind, prepend. rewrite Hm. destruct (k a h1). reflexivity. Qed.

Lemma bind_emit_prepend {B} (e : Event) (k : unit -> M B) h :
  bind (emit e) k h = prepend [e] (k tt h).
Proof. apply bind_prepend. reflexivity. Qed.

Lemma surjective_run {A} (r : list Event * Outcome A) : r = (trace r, outcome r).
Proof. destruct r; reflexivity. Qed.

(** The trace of a sequence starts with the trace of its first part. *)
Lemma trace_bind {A B} (m : M A) (k : A -> M B) h :
  trace (bind m k h) =
  trace (m h) ++ match outcome (m h) with
                 | Ret (a, h1) => trace (k a h1)
                 | _ => []
                 end.
Proof.
  unfold bind, trace, outcome. destruct (m h) as [t1 [[a h1]|c|f]]; simpl.
  - destruct (k a h1); reflexivity.
  - rewrite app_nil_r; reflexivity.
  - rewrite app_nil_r; reflexivity.
Qed.

(** ** Rules of the weakest-precondition predicate *)

Lemma sat_ret {A} E (Q : A -> Heap -> Prop) a h : Q a h -> sat E Q (ret a h).
Proof. intros HQ. split; [constructor | exact HQ]. Qed.

Lemma sat_bind {A B} E (Q : B -> Heap -> Prop) (m : M A) (k : A -> M B) h :
  sat E (fun a h1 => sat E Q (k a h1)) (m h) -> sat E Q (bind m k h).
Proof.
  unfold sat, bind, trace, outcome.
  destruct (m h) as [t1 [[a h1]|c|f]]; simpl.
  - intros [Ht [Hk HQ]]. destruct (k a h1) as [t2 o]; simpl in *.
    split; [apply Forall_app; split; assumption | exact HQ].
  - intros [Ht _]. split; [exact Ht | exact I].
  - intros [Ht _]. split; [exact Ht | exact I].
Qed.

Lemma sat_emit E (Q : unit -> Heap -> Prop) e h :
  E e -> Q tt h -> sat E Q (emit e h).
Proof. intros He HQ. split; [repeat constructor; exact He | exact HQ]. Qed.

Lemma sat_exit {A} E (Q : A -> Heap -> Prop) code h : sat E Q (exit code h).
Proof. split; [constructor | exact I]. Qed.

Lemma sat_fault {A} E (Q : A -> Heap -> Prop) f h : sat E Q (fault f h).
Proof. split; [constructor | exact I]. Qed.

Lemma sat_deref E (Q : ListeningSocket -> Heap -> Prop) p h :
  (forall o, h !! p = Some o -> Q o h) -> sat E Q (deref p h).
Proof.
  intros HQ. unfold deref. destruct (h !! p) as [o|] eqn:Hp.
  - split; [constructor | apply HQ; reflexivity].
  - split; [constructor | exact I].
Qed.

Lemma sat_emit_all E (Q : unit -> Heap -> Prop) es h :
  Forall E es -> Q tt h -> sat E Q (emit_all es h).
Proof.
  intros Hes HQ. revert h HQ. induction Hes as [|e es He Hes IH]; intros h HQ.
  - apply sat_ret, HQ.
  - simpl. apply sat_bind, sat_emit; [exact He | apply IH, HQ].
Qed.

Lemma sat_mono {A} (E E' : Event -> Prop) (Q Q' : A -> Heap -> Prop) r :
  (forall e, E e -> E' e) -> (forall a h, Q a h -> Q' a h) ->
  sat E Q r -> sat E' Q' r.
Proof.
  intros HE HQ [Ht Ho]. split.
  - eapply Forall_impl; [exact Ht | exact HE].
  - destruct (outcome r) as [[a h]|c|f]; [apply HQ, Ho | exact I | exact I].
Qed.

(** ** Buffers *)

Lemma memset_length a c n : length (memset a c n) = length a.
Proof.
  unfold memset. rewrite length_app, length_replicate, length_drop. lia.
Qed.

Lemma memset_full a c n :
  length a = Z.to_nat n -> memset a c n = replicate (Z.to_nat n) c.
Proof.
  intros Hlen. unfold memset. rewrite <- Hlen, drop_all, app_nil_r.
  rewrite Nat.min_id. reflexivity.
Qed.

Lemma strlen_lookup a n :
  strlen a = Some n -> a !! n = Some x00 /\ (n < length a)%nat.
Proof.
  revert n. induction a as [|b a IH]; intros n; simpl; [discriminate|].
  destruct (Byte.eqb b x00) eqn:Hb.
  - intros [= <-]. apply Byte.byte_dec_bl in Hb. subst b. split; [reflexivity | simpl; lia].
  - destruct (strlen a) as [m|]; simpl; [|discriminate].
    intros [= <-]. destruct (IH m eq_refl) as [H1 H2]. split; [exact H1 | simpl; lia].
Qed.

Lemma strlen_is_Some a i : a !! i = Some x00 -> is_Some (strlen a).
Proof.
  revert i. induction a as [|b a IH]; intros i; [rewrite lookup_nil; discriminate|].
  simpl. destruct (Byte.eqb b x00) eqn:Hb; [eexists; reflexivity|].
  destruct i as [|i]; simpl.
  - intros [= ->]. discriminate.
  - intros Hi. destruct (IH i Hi) as [m Hm]. rewrite Hm. eexists; reflexivity.
Qed.

Lemma strlen_replicate_zero n : (0 < n)%nat -> strlen (replicate n x00) = Some 0%nat.
Proof. destruct n; [lia | reflexivity]. Qed.

(** ** Construction of the socket chain *)

Lemma test_connection_eq x h :
  test_connection x h =
  if x <? 0 then ([failed_to_connect], Exit EXIT_FAILURE) else ([], Ret (tt, h)).
Proof. unfold test_connection. destruct (x <? 0); reflexivity. Qed.

Lemma SimpleSocket_ctor_eq os this domain service protocol port interface h :
  SimpleSocket_ctor os this domain service protocol port interface h =
  let ev := EvSocket domain service protocol (socket_ret os) in
  if socket_ret os <? 0 then ([ev; failed_to_connect], Exit EXIT_FAILURE)
  else ([ev],
        Ret (mk_SimpleSocket (ctor_address os this domain port interface)
                             (socket_ret os) (connection this), h)).
Proof.
  unfold SimpleSocket_ctor, sys_socket. rewrite bind_assoc, bind_emit, bind_ret_l.
  unfold bind. cbn [trace outcome fst snd sock]. rewrite test_connection_eq.
  destruct (socket_ret os <? 0); reflexivity.
Qed.

Lemma BindingSocket_ctor_eq os this domain service protocol port interface h :
  BindingSocket_ctor os this domain service protocol port interface h =
  let addr := ctor_address os (bs_base this) domain port interface in
  let ev := EvSocket domain service protocol (socket_ret os) in
  let evb := EvBind (socket_ret os) addr (bind_ret os) in
  if socket_ret os <? 0 then ([ev; failed_to_connect], Exit EXIT_FAILURE)
  else if binding this <? 0 then ([ev; evb; failed_to_connect], Exit EXIT_FAILURE)
  else ([ev; evb],
        Ret (mk_BindingSocket
               (mk_SimpleSocket addr (socket_ret os) (bind_ret os))
               (binding this), h)).
Proof.
  unfold BindingSocket_ctor. cbv zeta.
  destruct (socket_ret os <? 0) eqn:Hs.
  - erewrite bind_Exit; [reflexivity|]. rewrite SimpleSocket_ctor_eq. cbv zeta.
    rewrite Hs. reflexivity.
  - erewrite bind_Ret; [|rewrite SimpleSocket_ctor_eq; cbv zeta; rewrite Hs; reflexivity].
    unfold connect_to_nw. rewrite bind_assoc, bind_emit, bind_ret_l.
    unfold bind, get_sock, get_address, set_connection.
    cbn [trace outcome fst snd binding bs_base sock address app].
    rewrite test_connection_eq. destruct (binding this <? 0); reflexivity.
Qed.

Lemma ListeningSocket_ctor_eq os this domain service protocol port interface bcklg h :
  ListeningSocket_ctor os this domain service protocol port interface bcklg h =
  let addr := ctor_address os (bs_base (ls_base this)) domain port interface in
  let ev := EvSocket domain service protocol (socket_ret os) in
  let evb := EvBind (socket_ret os) addr (bind_ret os) in
  let evl := EvListen (socket_ret os) bcklg (listen_ret os) in
  if socket_ret os <? 0 then ([ev; failed_to_connect], Exit EXIT_FAILURE)
  else if binding (ls_base this) <? 0 then ([ev; evb; failed_to_connect], Exit EXIT_FAILURE)
  else if listen_ret os <? 0 then ([ev; evb; evl; failed_to_connect], Exit EXIT_FAILURE)
  else ([ev; evb; evl],
        Ret (mk_ListeningSocket
               (mk_BindingSocket
                  (mk_SimpleSocket addr (socket_ret os) (bind_ret os))
                  (binding (ls_base this)))
               bcklg (listen_ret os), h)).
Proof.
  unfold ListeningSocket_ctor. cbv zeta.
  destruct (socket_ret os <? 0) eqn:Hs.
  { erewrite bind_Exit; [reflexivity|]. rewrite BindingSocket_ctor_eq. cbv zeta.
    rewrite Hs. reflexivity. }
  destruct (binding (ls_base this) <? 0) eqn:Hb.
  { erewrite bind_Exit; [reflexivity|]. rewrite BindingSocket_ctor_eq. cbv zeta.
    rewrite Hs, Hb. reflexivity. }
  erewrite bind_Ret; [|rewrite BindingSocket_ctor_eq; cbv zeta; rewrite Hs, Hb; reflexivity].
  unfold start_listening. rewrite bind_assoc, bind_emit, bind_ret_l.
  unfold bind, get_sock.
  cbn [trace outcome fst snd listening ls_base bs_base backlog sock app].
  rewrite test_connection_eq. destruct (listen_ret os <? 0); reflexivity.
Qed.

Lemma SimpleServer_ctor_ok os domain service protocol port interface bcklg h :
  setup_passes os = true ->
  SimpleServer_ctor os domain service protocol port interface bcklg h =
  (setup_trace os domain service protocol port interface bcklg,
   Ret (mk_SimpleServer (new_ret os),
        <[new_ret os := listening_socket_of os domain port interface bcklg]> h)).
Proof.
  unfold setup_passes. intros Hp.
  apply andb_prop in Hp as [Hp Hl]. apply andb_prop in Hp as [Hs Hb].
  apply negb_true_iff in Hs, Hb, Hl.
  unfold SimpleServer_ctor.
  erewrite bind_Ret;
    [|rewrite ListeningSocket_ctor_eq; cbv zeta; rewrite Hs, Hb, Hl; reflexivity].
  unfold heap_new, bind, ret, trace, outcome. reflexivity.
Qed.

Lemma SimpleServer_ctor_exit os domain service protocol port interface bcklg h :
  setup_passes os = false ->
  exists pre,
    SimpleServer_ctor os domain service protocol port interface bcklg h =
    (pre ++ [failed_to_connect], Exit EXIT_FAILURE) /\
    pre `prefix_of` setup_trace os domain service protocol port interface bcklg /\
    (socket_ret os < 0 ->
     pre = [EvSocket domain service protocol (socket_ret os)]).
Proof.
  unfold setup_passes. intros Hp. unfold SimpleServer_ctor, setup_trace.
  destruct (socket_ret os <? 0) eqn:Hs.
  { eexists [_]. split; [|split; [eexists; reflexivity | reflexivity]].
    erewrite bind_Exit; [reflexivity|]. rewrite ListeningSocket_ctor_eq. cbv zeta.
    rewrite Hs. reflexivity. }
  apply Z.ltb_ge in Hs as Hs'.
  destruct (binding (ls_base (raw_storage os)) <? 0) eqn:Hb.
  { eexists [_; _]. split; [|split; [eexists; reflexivity | lia]].
    erewrite bind_Exit; [reflexivity|]. rewrite ListeningSocket_ctor_eq. cbv zeta.
    rewrite Hs, Hb. reflexivity. }
  destruct (listen_ret os <? 0) eqn:Hl; [|discriminate].
  eexists [_; _; _]. split; [|split; [eexists [] ; reflexivity | lia]].
  erewrite bind_Exit; [reflexivity|]. rewrite ListeningSocket_ctor_eq. cbv zeta.
  rewrite Hs, Hb, Hl. reflexivity.
Qed.

(** ** The three stages of one iteration *)

(** *** Sequences of events *)

Lemma emit_all_eq es h : emit_all es h = (es, Ret (tt, h)).
Proof.
  induction es as [|e es IH]; [reflexivity|].
  simpl. rewrite bind_emit, IH. reflexivity.
Qed.

(** *** respond *)

Lemma response_strlen : strlen (response_bytes ++ [x00]) = Some 104%nat.
Proof. vm_compute. reflexivity. Qed.

Lemma responder_eq c this h :
  responder c this h = (respond_trace c (new_socket this), Ret (this, h)).
Proof.
  unfold responder, c_strlen. cbv zeta. fold response_bytes.
  rewrite response_strlen, bind_ret_l.
  unfold sys_send, sys_shutdown, sys_close, respond_trace, sent_line, cerr, cout.
  rewrite bind_assoc, bind_emit, bind_ret_l.
  destruct (send_ret c <? 0); reflexivity.
Qed.

(** *** handle *)

Lemma handler_eq this h n :
  strlen (buffer this) = Some n ->
  handler this h = (handle_trace (buffer this) n, Ret (this, h)).
Proof.
  intros Hn. unfold handler, c_strlen, handle_trace, cout. rewrite Hn, bind_ret_l.
  destruct (0 <? Z.of_nat n).
  - rewrite bind_ret_l, Nat2Z.id. reflexivity.
  - reflexivity.
Qed.

Lemma handler_no_nul this h :
  strlen (buffer this) = None ->
  handler this h = ([], Fault (OutOfBounds (Z.of_nat (length (buffer this))))).
Proof. intros Hn. unfold handler, c_strlen. rewrite Hn. reflexivity. Qed.

(** *** accept *)

Lemma sys_recv_eq c fd buf len flags h :
  sys_recv c fd buf len flags h =
  ([EvRecv fd buf len flags (recv_count c len)],
   Ret ((recv_count c len, recv_buffer c len buf), h)).
Proof.
  unfold sys_recv, recv_count, recv_buffer. destruct (recv_res c); reflexivity.
Qed.

Lemma recv_count_bound c len : 0 <= len -> -1 <= recv_count c len <= len.
Proof.
  intros Hlen. unfold recv_count. destruct (recv_res c) as [|data]; [lia|].
  rewrite length_take. lia.
Qed.

Lemma recv_buffer_length c len buf :
  0 <= len <= Z.of_nat (length buf) -> length (recv_buffer c len buf) = length buf.
Proof.
  intros Hlen. unfold recv_buffer. destruct (recv_res c) as [|data]; [reflexivity|].
  rewrite length_app, length_drop, length_take. lia.
Qed.

Lemma acceptor_eq c this h ls :
  h !! get_socket (ts_base this) = Some ls ->
  acceptor c this h =
  let fd := accept_ret c in
  if fd <? 0 then
    (accept_events ls c ++ [EvCerr [OStr "Accept failed with error: "; OStrerror; OEndl]],
     Ret (set_new_socket fd this, h))
  else
    let n := recv_count c 30000 in
    let buf := recv_buffer c 30000 (memset (buffer this) x00 BUFFER_SIZE) in
    let pre := accept_events ls c ++ read_events c (buffer this) in
    if n <? 0 then
      (pre ++ [EvCerr [OStr "Read failed with error: "; OStrerror; OEndl]; EvClose fd],
       Ret (mk_TestServer (ts_base this) buf fd, h))
    else if n =? 0 then
      (pre ++ [EvCerr [OStr "Client closed connection"; OEndl]; EvClose fd],
       Ret (mk_TestServer (ts_base this) buf fd, h))
    else if n <? Z.of_nat (length buf) then
      (pre ++ hex_events n (<[Z.to_nat n := x00]> buf),
       Ret (mk_TestServer (ts_base this) (<[Z.to_nat n := x00]> buf) fd, h))
    else
      (pre ++ [EvCout [OStr "Bytes read: "; OInt n; OEndl]], Fault (OutOfBounds n)).
Proof.
  intros Hls.
  assert (Hd : deref (get_socket (ts_base this)) h = ([], Ret (ls, h))).
  { unfold deref. rewrite Hls. reflexivity. }
  unfold acceptor, sys_accept, sys_close, cout, cerr, get_address, get_sock,
    set_new_socket, set_buffer, array_store.
  cbn [new_socket buffer ts_base]. cbv zeta.
  rewrite (bind_prepend _ _ _ _ _ _ Hd), bind_emit_prepend.
  rewrite (bind_prepend _ _ _ _ _ _ Hd), bind_assoc, bind_emit_prepend, bind_ret_l.
  destruct (accept_ret c <? 0) eqn:Hfd; [rewrite bind_emit_prepend; reflexivity|].
  rewrite !bind_emit_prepend.
  rewrite (bind_prepend _ _ _ _ _ _ (sys_recv_eq _ _ _ _ _ _)).
  cbn [fst snd].
  destruct (recv_count c 30000 <? 0) eqn:Hneg; [rewrite !bind_emit_prepend; reflexivity|].
  destruct (recv_count c 30000 =? 0) eqn:Hzero; [rewrite !bind_emit_prepend; reflexivity|].
  rewrite bind_emit_prepend.
  apply Z.ltb_ge in Hneg. rewrite (proj2 (Z.leb_le _ _) Hneg). cbn [andb].
  destruct (recv_count c 30000 <? _) eqn:Hlt; [|reflexivity].
  rewrite bind_ret_l, bind_emit_prepend.
  rewrite (bind_prepend _ _ _ _ _ _ (emit_all_eq _ _)), bind_emit_prepend.
  reflexivity.
Qed.

(** ** The invariant of the loop *)

Lemma BUFFER_SIZE_nat : Z.of_nat (Z.to_nat BUFFER_SIZE) = BUFFER_SIZE.
Proof. apply Z2Nat.id. unfold BUFFER_SIZE. lia. Qed.

Lemma BUFFER_SIZE_pos : (0 < Z.to_nat BUFFER_SIZE)%nat.
Proof. unfold BUFFER_SIZE. lia. Qed.

Lemma memset_zeros a : length a = Z.to_nat BUFFER_SIZE -> memset a x00 BUFFER_SIZE = zeros.
Proof. intros Hlen. apply memset_full, Hlen. Qed.

Lemma zeros_length : length zeros = Z.to_nat BUFFER_SIZE.
Proof. apply length_replicate. Qed.

Lemma strlen_zeros : strlen zeros = Some 0%nat.
Proof. apply strlen_replicate_zero, BUFFER_SIZE_pos. Qed.

(** A read that fails or finds the peer gone leaves the cleared buffer as it is. *)
Lemma recv_buffer_nothing c len buf :
  recv_count c len <= 0 -> recv_buffer c len buf = buf.
Proof.
  unfold recv_count, recv_buffer. destruct (recv_res c) as [|data]; [reflexivity|].
  intros Hn. assert (Hl : length (take (Z.to_nat len) data) = 0%nat) by lia.
  rewrite Hl. apply length_zero_iff_nil in Hl. rewrite Hl. reflexivity.
Qed.

Lemma wf_zeros base fd h :
  is_Some (h !! get_socket base) -> wf (mk_TestServer base zeros fd) h.
Proof.
  intros Hp. split; [apply zeros_length | split; [|exact Hp]].
  cbn [buffer]. rewrite strlen_zeros. eexists; reflexivity.
Qed.

(** The two ways the accept stage ends from a state that satisfies the
    invariant: it returns, with the invariant kept, the heap and the pointer
    to the listening socket untouched and the descriptor set to what
    [accept] returned; or the read filled the whole buffer and the
    terminating NUL is stored outside it. *)
Lemma acceptor_wf c this h :
  wf this h ->
  (exists ta this1,
      acceptor c this h = (ta, Ret (this1, h)) /\
      wf this1 h /\ ts_base this1 = ts_base this /\ new_socket this1 = accept_ret c) \/
  (exists ta,
      acceptor c this h = (ta, Fault (OutOfBounds BUFFER_SIZE)) /\
      0 <= accept_ret c /\ recv_count c 30000 = BUFFER_SIZE).
Proof.
  intros (Hlen & Hnul & [ls Hls]).
  rewrite (acceptor_eq _ _ _ _ Hls). cbv zeta.
  destruct (accept_ret c <? 0) eqn:Hfd.
  { left. eexists _, _. split; [reflexivity|].
    split; [|split; reflexivity].
    split; [exact Hlen | split; [exact Hnul | eexists; exact Hls]]. }
  rewrite (memset_zeros _ Hlen).
  assert (Hbuf : length (recv_buffer c 30000 zeros) = Z.to_nat BUFFER_SIZE).
  { rewrite recv_buffer_length; [apply zeros_length|].
    rewrite zeros_length. unfold BUFFER_SIZE. lia. }
  destruct (recv_count c 30000 <? 0) eqn:Hneg.
  { left. eexists _, _. split; [reflexivity|]. split; [|split; reflexivity].
    apply Z.ltb_lt in Hneg. rewrite recv_buffer_nothing by lia.
    apply wf_zeros. eexists; exact Hls. }
  destruct (recv_count c 30000 =? 0) eqn:Hzero.
  { left. eexists _, _. split; [reflexivity|]. split; [|split; reflexivity].
    apply Z.eqb_eq in Hzero. rewrite recv_buffer_nothing by lia.
    apply wf_zeros. eexists; exact Hls. }
  rewrite Hbuf, BUFFER_SIZE_nat.
  apply Z.ltb_ge in Hneg, Hfd. apply Z.eqb_neq in Hzero.
  destruct (recv_count c 30000 <? BUFFER_SIZE) eqn:Hlt.
  - left. eexists _, _. split; [reflexivity|]. split; [|split; reflexivity].
    apply Z.ltb_lt in Hlt.
    split; [cbn [buffer]; rewrite length_insert; exact Hbuf|].
    split; [|eexists; exact Hls]. cbn [buffer].
    apply (strlen_is_Some _ (Z.to_nat (recv_count c 30000))).
    apply list_lookup_insert_eq. rewrite Hbuf. lia.
  - right. apply Z.ltb_ge in Hlt.
    pose proof (recv_count_bound c 30000 ltac:(lia)) as Hb.
    assert (Heq : recv_count c 30000 = BUFFER_SIZE) by (unfold BUFFER_SIZE in *; lia).
    rewrite Heq. eexists. split; [reflexivity | split; [exact Hfd | reflexivity]].
Qed.

(** One loop iteration from a state that satisfies the invariant. *)
Lemma launch_body_wf c this h :
  wf this h ->
  (exists ta this1 n1,
      acceptor c this h = (ta, Ret (this1, h)) /\
      wf this1 h /\ ts_base this1 = ts_base this /\ new_socket this1 = accept_ret c /\
      strlen (buffer this1) = Some n1 /\
      handler this1 h = (handle_trace (buffer this1) n1, Ret (this1, h)) /\
      responder c this1 h = (respond_trace c (accept_ret c), Ret (this1, h)) /\
      launch_body c this h =
      (waiting_line :: ta ++ handle_trace (buffer this1) n1
         ++ respond_trace c (accept_ret c) ++ [handled_line],
       Ret (this1, h))) \/
  (exists ta,
      acceptor c this h = (ta, Fault (OutOfBounds BUFFER_SIZE)) /\
      0 <= accept_ret c /\ recv_count c 30000 = BUFFER_SIZE /\
      launch_body c this h = (waiting_line :: ta, Fault (OutOfBounds BUFFER_SIZE))).
Proof.
  intros Hwf. unfold launch_body, cout. rewrite bind_emit_prepend. fold waiting_line.
  destruct (acceptor_wf c this h Hwf)
    as [(ta & this1 & Ha & Hwf1 & Hbase & Hfd) | (ta & Ha & Hfd & Hfull)].
  - left. destruct Hwf1 as (Hlen1 & [n1 Hn1] & Hp1).
    exists ta, this1, n1.
    pose proof (handler_eq this1 h n1 Hn1) as Hh.
    pose proof (responder_eq c this1 h) as Hr. rewrite Hfd in Hr.
    repeat (split; [first [assumption | exact (conj Hlen1 (conj (ex_intro _ n1 Hn1) Hp1))]|]).
    rewrite (bind_prepend _ _ _ _ _ _ Ha), (bind_prepend _ _ _ _ _ _ Hh),
      (bind_prepend _ _ _ _ _ _ Hr), bind_emit_prepend.
    unfold prepend, ret. cbn [fst snd app]. reflexivity.
  - right. exists ta. repeat (split; [assumption|]).
    rewrite (bind_Fault _ _ _ _ _ Ha). reflexivity.
Qed.

(** ** The loop *)

Lemma launch_cons c conns this h t this1 h1 :
  launch_body c this h = (t, Ret (this1, h1)) ->
  launch (c :: conns) this h = prepend t (launch conns this1 h1).
Proof. intros Hb. cbn [launch]. apply bind_prepend, Hb. Qed.

Lemma prepend_nil {A} (r : list Event * Outcome A) : prepend [] r = r.
Proof. destruct r; reflexivity. Qed.

Lemma trace_prepend {A} t (r : list Event * Outcome A) : trace (prepend t r) = t ++ trace r.
Proof. reflexivity. Qed.

Lemma outcome_prepend {A} t (r : list Event * Outcome A) : outcome (prepend t r) = outcome r.
Proof. reflexivity. Qed.

(** Iterations follow one another: a run over [pre ++ conns] is the run
    over [pre] followed by the run over [conns] from the state [pre] left. *)
Lemma launch_app pre conns this h t this1 h1 :
  launch pre this h = (t, Ret (this1, h1)) ->
  launch (pre ++ conns) this h = prepend t (launch conns this1 h1).
Proof.
  revert this h t. induction pre as [|c pre IH]; intros this h t Hpre.
  - cbn [launch] in Hpre. injection Hpre as <- <- <-. rewrite prepend_nil. reflexivity.
  - cbn [launch app] in *. unfold bind in Hpre |- *.
    destruct (launch_body c this h) as [tb [[this' h']|code|f]]; try discriminate.
    destruct (launch pre this' h') as [tp o] eqn:Hp.
    injection Hpre as <- ->.
    rewrite (IH _ _ _ Hp). unfold prepend.
    destruct (launch conns this1 h1) as [tc oc]. cbn [fst snd].
    rewrite app_assoc. reflexivity.
Qed.

(** The loop keeps the invariant, the heap and the pointer to the listening
    socket. *)
Lemma launch_wf conns this h t this1 h1 :
  wf this h ->
  launch conns this h = (t, Ret (this1, h1)) ->
  wf this1 h1 /\ h1 = h /\ ts_base this1 = ts_base this.
Proof.
  revert this h t. induction conns as [|c conns IH]; intros this h t Hwf Hrun.
  - cbn [launch] in Hrun. injection Hrun as <- <- <-. auto.
  - destruct (launch_body_wf c this h Hwf)
      as [(ta & this' & n' & _ & Hwf' & Hbase & _ & _ & _ & _ & Hb) | (ta & _ & _ & _ & Hb)].
    + rewrite (launch_cons _ _ _ _ _ _ _ Hb) in Hrun.
      destruct (launch conns this' h) as [tc oc] eqn:Hc.
      unfold prepend in Hrun. cbn [fst snd] in Hrun. injection Hrun as <- ->.
      destruct (IH _ _ _ Hwf' Hc) as (H1 & H2 & H3).
      split; [exact H1 | split; [exact H2 | congruence]].
    + cbn [launch] in Hrun. rewrite (bind_Fault _ _ _ _ _ Hb) in Hrun. discriminate.
Qed.

(** ** The whole process *)

Lemma initial_wf os : wf (initial_server os) (initial_heap os).
Proof.
  apply wf_zeros. exists (server_object os). apply lookup_singleton_eq.
Qed.

Lemma run_ok os conns :
  setup_passes os = true ->
  run os conns =
  prepend (server_setup_trace os) (launch conns (initial_server os) (initial_heap os)).
Proof.
  intros Hp. unfold run, TestServer_ctor.
  rewrite (bind_prepend _ _ _ _ _ _ (SimpleServer_ctor_ok _ _ _ _ _ _ _ _ Hp)).
  cbv zeta. unfold set_buffer. cbn [buffer ts_base new_socket].
  rewrite memset_zeros by apply length_replicate.
  reflexivity.
Qed.

Lemma run_exit os conns :
  setup_passes os = false ->
  exists pre,
    run os conns = (pre ++ [failed_to_connect], Exit EXIT_FAILURE) /\
    pre `prefix_of` server_setup_trace os /\
    (socket_ret os < 0 -> pre = [EvSocket AF_INET SOCK_STREAM 0 (socket_ret os)]).
Proof.
  intros Hp.
  destruct (SimpleServer_ctor_exit os AF_INET SOCK_STREAM 0 3000 INADDR_ANY 10 ∅ Hp)
    as (pre & Hrun & Hpre & Hsock).
  exists pre. split; [|split; assumption].
  unfold run, TestServer_ctor. apply bind_Exit, Hrun.
Qed.

(** A run that returns went through start-up unharmed and satisfies the
    invariant. *)
Lemma run_Ret os conns t this h :
  run os conns = (t, Ret (this, h)) ->
  setup_passes os = true /\ wf this h /\ h = initial_heap os /\
  ts_base this = mk_SimpleServer (new_ret os) /\
  exists tl, launch conns (initial_server os) (initial_heap os) = (tl, Ret (this, h)) /\
             t = server_setup_trace os ++ tl.
Proof.
  intros Hrun. destruct (setup_passes os) eqn:Hp.
  - rewrite (run_ok _ _ Hp) in Hrun.
    destruct (launch conns (initial_server os) (initial_heap os)) as [tl o] eqn:Hl.
    unfold prepend in Hrun. cbn [fst snd] in Hrun. injection Hrun as <- ->.
    destruct (launch_wf _ _ _ _ _ _ (initial_wf os) Hl) as (Hwf & Hh & Hb).
    split; [reflexivity|]. split; [exact Hwf|]. split; [exact Hh|].
    split; [exact Hb|]. exists tl. split; reflexivity.
  - destruct (run_exit os conns Hp) as (pre & Hex & _). rewrite Hex in Hrun. discriminate.
Qed.

(** * Properties of the server *)

(** ** Start-up *)

(** C1 (the code departs from the claim).  The port is in use: [bind]
    returns -1, and the storage of the object happens to hold 0 where
    [binding] lives.  The constructor of [BindingSocket] returns all the
    same, with the failure recorded in [connection] only, and the next
    constructor goes on to call [listen] on the unbound descriptor; the
    process is not terminated. *)
Theorem C1_failed_bind_not_fatal :
  bind_ret os_bind_fails < 0 /\
  BindingSocket_ctor os_bind_fails (ls_base (raw_storage os_bind_fails))
                     AF_INET SOCK_STREAM 0 3000 INADDR_ANY ∅
  = ([EvSocket AF_INET SOCK_STREAM 0 3; EvBind 3 addr_3000 (-1)],
     Ret (mk_BindingSocket (mk_SimpleSocket addr_3000 3 (-1)) 0, ∅)) /\
  run os_bind_fails []
  = ([EvSocket AF_INET SOCK_STREAM 0 3; EvBind 3 addr_3000 (-1); EvListen 3 10 0],
     Ret (initial_server os_bind_fails, initial_heap os_bind_fails)).
Proof.
  split; [reflexivity|]. split.
  - rewrite BindingSocket_ctor_eq. reflexivity.
  - rewrite run_ok by reflexivity. reflexivity.
Qed.

(** C10.  No operation assigns [binding]: the constructor of
    [BindingSocket] hands the result of [bind] to [set_connection], so
    that after construction [get_binding] still yields whatever the storage
    held before, and [connection] holds the result of [bind].  The fatal
    check after [bind] reads that same indeterminate value: once [socket]
    has succeeded, the constructor exits exactly when the value is negative,
    whatever [bind] returned.  [start_listening] leaves [binding] alone as
    well, so the object a completed run keeps on its heap still has it. *)
Theorem C10_binding_never_assigned os this domain service protocol port interface h :
  (forall t o h',
      BindingSocket_ctor os this domain service protocol port interface h = (t, Ret (o, h')) ->
      get_binding o = binding this /\ connection (bs_base o) = bind_ret os) /\
  (0 <= socket_ret os ->
   ((exists t, BindingSocket_ctor os this domain service protocol port interface h
               = (t, Exit EXIT_FAILURE))
    <-> binding this < 0)) /\
  (forall ls t ls' h',
      start_listening os ls h = (t, Ret (ls', h')) ->
      get_binding (ls_base ls') = binding (ls_base ls)) /\
  (forall conns t srv h',
      run os conns = (t, Ret (srv, h')) ->
      exists ls, h' !! get_socket (ts_base srv) = Some ls /\
                 get_binding (ls_base ls) = binding (ls_base (raw_storage os))).
Proof.
  split; [|split; [|split]].
  - intros t o h'. rewrite BindingSocket_ctor_eq. cbv zeta.
    destruct (socket_ret os <? 0); [discriminate|].
    destruct (binding this <? 0); [discriminate|].
    intros [= <- <- <-]. split; reflexivity.
  - intros Hs. rewrite BindingSocket_ctor_eq. cbv zeta.
    rewrite (proj2 (Z.ltb_ge _ _) Hs).
    destruct (binding this <? 0) eqn:Hb.
    + apply Z.ltb_lt in Hb. split; [intros _; exact Hb | intros _; eexists; reflexivity].
    + apply Z.ltb_ge in Hb. split; [intros [t [=]] | lia].
  - intros ls t ls' h'. unfold start_listening. rewrite bind_emit_prepend.
    unfold prepend, ret. cbn [fst snd]. intros [= <- <- <-]. reflexivity.
  - intros conns t srv h' Hrun.
    destruct (run_Ret _ _ _ _ _ Hrun) as (_ & _ & -> & -> & _).
    exists (server_object os). split; [apply lookup_singleton_eq | reflexivity].
Qed.

Lemma C10_binding_never_assigned_witness :
  0 <= socket_ret os_bind_fails /\
  ((exists t, BindingSocket_ctor os_bind_fails (ls_base raw_negative_binding)
                AF_INET SOCK_STREAM 0 3000 INADDR_ANY ∅ = (t, Exit EXIT_FAILURE))
   <-> binding (ls_base raw_negative_binding) < 0).
Proof.
  split; [vm_compute; discriminate|].
  apply (C10_binding_never_assigned os_bind_fails (ls_base raw_negative_binding)
           AF_INET SOCK_STREAM 0 3000 INADDR_ANY ∅).
  vm_compute; discriminate.
Defined.

Lemma no_accept_in_setup os pre :
  pre `prefix_of` server_setup_trace os ->
  forallb (fun e => negb (is_accept e)) (pre ++ [failed_to_connect]) = true.
Proof.
  intros [suf Hsuf]. unfold server_setup_trace, setup_trace in Hsuf.
  destruct pre as [|e1 [|e2 [|e3 [|e4 pre]]]]; cbn [app] in Hsuf;
    simplify_eq; reflexivity.
Qed.

(** C5.  When [socket] returns a negative descriptor or [listen] returns a
    negative result, the process ends with [exit(EXIT_FAILURE)]: the last
    thing it does is the [perror] of the failed check, everything before is
    start-up calls (only the [socket] call itself when that is the one that
    failed), and no [accept] is ever issued, however many clients are
    waiting. *)
Theorem C5_setup_failure_is_fatal os conns :
  socket_ret os < 0 \/ listen_ret os < 0 ->
  exists pre,
    run os conns = (pre ++ [failed_to_connect], Exit EXIT_FAILURE) /\
    EXIT_FAILURE <> 0 /\
    pre `prefix_of` server_setup_trace os /\
    (socket_ret os < 0 -> pre = [EvSocket AF_INET SOCK_STREAM 0 (socket_ret os)]) /\
    forallb (fun e => negb (is_accept e)) (trace (run os conns)) = true.
Proof.
  intros Hfail.
  assert (Hp : setup_passes os = false).
  { unfold setup_passes. destruct Hfail as [Hs|Hl].
    - apply Z.ltb_lt in Hs. rewrite Hs. reflexivity.
    - apply Z.ltb_lt in Hl. rewrite Hl. rewrite andb_false_r. reflexivity. }
  destruct (run_exit os conns Hp) as (pre & Hrun & Hpre & Hsock).
  exists pre. split; [exact Hrun|]. split; [discriminate|].
  split; [exact Hpre|]. split; [exact Hsock|].
  rewrite Hrun. apply (no_accept_in_setup os), Hpre.
Qed.

Lemma C5_setup_failure_is_fatal_witness :
  (socket_ret os_listen_fails < 0 \/ listen_ret os_listen_fails < 0) /\
  exists pre,
    run os_listen_fails [conn_hi] = (pre ++ [failed_to_connect], Exit EXIT_FAILURE) /\
    EXIT_FAILURE <> 0 /\
    pre `prefix_of` server_setup_trace os_listen_fails /\
    (socket_ret os_listen_fails < 0 ->
     pre = [EvSocket AF_INET SOCK_STREAM 0 (socket_ret os_listen_fails)]) /\
    forallb (fun e => negb (is_accept e)) (trace (run os_listen_fails [conn_hi])) = true.
Proof.
  assert (Hf : socket_ret os_listen_fails < 0 \/ listen_ret os_listen_fails < 0)
    by (right; vm_compute; reflexivity).
  split; [exact Hf|].
  apply (C5_setup_failure_is_fatal os_listen_fails [conn_hi] Hf).
Defined.

(** ** What the loop can emit *)

Lemma sat_sys_recv E (Q : Z * list byte -> Heap -> Prop) c fd buf len flags h :
  E (EvRecv fd buf len flags (recv_count c len)) ->
  Q (recv_count c len, recv_buffer c len buf) h ->
  sat E Q (sys_recv c fd buf len flags h).
Proof.
  intros He HQ. rewrite sys_recv_eq. split; [repeat constructor; exact He | exact HQ].
Qed.

Lemma sat_array_store E (Q : list byte -> Heap -> Prop) a i v h :
  (0 <= i < Z.of_nat (length a) -> Q (<[Z.to_nat i := v]> a) h) ->
  sat E Q (array_store a i v h).
Proof.
  intros HQ. unfold array_store.
  destruct (0 <=? i) eqn:H0; destruct (i <? Z.of_nat (length a)) eqn:H1; cbn [andb];
    try apply sat_fault.
  apply sat_ret, HQ. apply Z.leb_le in H0. apply Z.ltb_lt in H1. lia.
Qed.

Lemma sat_c_strlen E (Q : Z -> Heap -> Prop) a h :
  (forall n, strlen a = Some n -> Q (Z.of_nat n) h) -> sat E Q (c_strlen a h).
Proof.
  intros HQ. unfold c_strlen. destruct (strlen a) as [n|].
  - apply sat_ret, HQ. reflexivity.
  - apply sat_fault.
Qed.

Ltac sat_step :=
  lazymatch goal with
  | |- sat _ _ (bind _ _ _) => apply sat_bind
  | |- sat _ _ (ret _ _) => apply sat_ret
  | |- sat _ _ (emit _ _) => apply sat_emit
  | |- sat _ _ (deref _ _) => apply sat_deref; intros ? ?
  | |- sat _ _ (fault _ _) => apply sat_fault
  | |- sat _ _ (exit _ _) => apply sat_exit
  | |- sat _ _ (emit_all _ _) => apply sat_emit_all
  | |- sat _ _ (sys_recv _ _ _ _ _ _) => apply sat_sys_recv
  | |- sat _ _ (array_store _ _ _ _) => apply sat_array_store; intros ?
  | |- sat _ _ (c_strlen _ _) => apply sat_c_strlen; intros ? ?
  | |- sat _ _ ((if ?b then _ else _) _) => destruct b eqn:?
  end.

Ltac unfold_calls :=
  unfold sys_accept, sys_send, sys_close, sys_shutdown, cout, cerr,
    get_address, get_sock, set_new_socket, set_buffer;
  cbn [new_socket buffer ts_base fst snd]; cbv zeta.

Lemma acceptor_sat c this h :
  length (buffer this) = Z.to_nat BUFFER_SIZE ->
  sat loop_event
      (fun this' h' =>
         length (buffer this') = Z.to_nat BUFFER_SIZE /\
         ts_base this' = ts_base this /\ h' = h)
      (acceptor c this h).
Proof.
  intros Hlen. unfold acceptor. unfold_calls.
  assert (Hbuf : length (recv_buffer c 30000 (memset (buffer this) x00 BUFFER_SIZE))
                 = Z.to_nat BUFFER_SIZE).
  { rewrite recv_buffer_length; rewrite memset_length, Hlen;
      [reflexivity | unfold BUFFER_SIZE; lia]. }
  repeat sat_step; cbn [loop_event new_socket buffer ts_base fst snd];
    rewrite ?length_insert; auto.
  - rewrite (memset_zeros _ Hlen).
    pose proof (recv_count_bound c 30000 ltac:(lia)). unfold BUFFER_SIZE. intuition lia.
  - apply Forall_forall. intros e He.
    apply list_elem_of_In, in_map_iff in He as (b & <- & _). exact I.
Qed.

(** The accept stage neither moves the pointer to the listening socket nor
    touches the heap, whatever state it starts from. *)
Lemma acceptor_frame c this h :
  sat (fun _ => True) (fun this' h' => ts_base this' = ts_base this /\ h' = h)
      (acceptor c this h).
Proof.
  unfold acceptor. unfold_calls.
  repeat sat_step; cbn [new_socket buffer ts_base]; auto.
  apply Forall_forall. auto.
Qed.

Lemma handler_sat E this h :
  (forall line, E (EvCout line)) ->
  sat E (fun this' h' => this' = this /\ h' = h) (handler this h).
Proof. intros HE. unfold handler. unfold_calls. repeat sat_step; auto. Qed.

Lemma responder_sat E c this h :
  (forall e, In e (respond_trace c (new_socket this)) -> E e) ->
  sat E (fun this' h' => this' = this /\ h' = h) (responder c this h).
Proof.
  intros HE. rewrite responder_eq.
  split; [apply Forall_forall; intros e He | split; reflexivity].
  apply HE, list_elem_of_In, He.
Qed.

Lemma loop_event_respond c fd e : In e (respond_trace c fd) -> loop_event e.
Proof.
  unfold respond_trace, sent_line. cbn [In].
  destruct (send_ret c <? 0); intros [<-|[<-|[<-|[<-|[]]]]]; exact I.
Qed.

Lemma launch_body_sat c this h :
  length (buffer this) = Z.to_nat BUFFER_SIZE ->
  sat loop_event
      (fun this' h' =>
         length (buffer this') = Z.to_nat BUFFER_SIZE /\
         ts_base this' = ts_base this /\ h' = h)
      (launch_body c this h).
Proof.
  intros Hlen. unfold launch_body, cout.
  apply sat_bind, sat_emit; [exact I|].
  apply sat_bind. eapply sat_mono; [| |apply (acceptor_sat _ _ _ Hlen)]; [auto|].
  intros this1 h1 (Hlen1 & Hb1 & ->). cbv beta.
  apply sat_bind. eapply sat_mono; [| |apply (handler_sat loop_event)];
    [auto | | intros; exact I].
  intros this2 h2 (-> & ->). cbv beta.
  apply sat_bind. eapply sat_mono; [| |apply (responder_sat loop_event)];
    [auto | | apply loop_event_respond].
  intros this3 h3 (-> & ->). cbv beta.
  apply sat_bind, sat_emit; [exact I|]. apply sat_ret. auto.
Qed.

Lemma launch_sat conns this h :
  length (buffer this) = Z.to_nat BUFFER_SIZE ->
  sat loop_event
      (fun this' h' =>
         length (buffer this') = Z.to_nat BUFFER_SIZE /\
         ts_base this' = ts_base this /\ h' = h)
      (launch conns this h).
Proof.
  revert this h. induction conns as [|c conns IH]; intros this h Hlen; cbn [launch].
  - apply sat_ret. auto.
  - apply sat_bind. eapply sat_mono; [| |apply (launch_body_sat _ _ _ Hlen)]; [auto|].
    intros this1 h1 (Hlen1 & Hb1 & ->). cbv beta.
    eapply sat_mono; [| |apply (IH _ _ Hlen1)]; [auto|].
    intros this2 h2 (Hlen2 & Hb2 & ->). split; [exact Hlen2 | split; [congruence | reflexivity]].
Qed.

(** The same for the frame alone, from any state. *)
Lemma launch_frame conns this h :
  sat (fun _ => True) (fun this' h' => ts_base this' = ts_base this /\ h' = h)
      (launch conns this h).
Proof.
  revert this h. induction conns as [|c conns IH]; intros this h; cbn [launch].
  - apply sat_ret. auto.
  - unfold launch_body, cout. rewrite !bind_assoc.
    apply sat_bind, sat_emit; [exact I|]. rewrite !bind_assoc.
    apply sat_bind. eapply sat_mono; [| |apply acceptor_frame]; [auto|].
    intros this1 h1 (Hb1 & ->). cbv beta. rewrite !bind_assoc.
    apply sat_bind. eapply sat_mono; [| |apply (handler_sat (fun _ => True))]; [auto| |auto].
    intros this2 h2 (-> & ->). cbv beta. rewrite !bind_assoc.
    apply sat_bind. eapply sat_mono; [| |apply (responder_sat (fun _ => True))]; [auto| |auto].
    intros this3 h3 (-> & ->). cbv beta. rewrite !bind_assoc.
    apply sat_bind, sat_emit; [exact I|]. rewrite bind_ret_l.
    eapply sat_mono; [| |apply IH]; [auto|].
    intros this2 h2 (Hb2 & ->). split; [congruence | reflexivity].
Qed.

Lemma sat_Ret {A} E (Q : A -> Heap -> Prop) r t a h :
  sat E Q r -> r = (t, Ret (a, h)) -> Forall E t /\ Q a h.
Proof. intros [Ht HQ] ->. split; [exact Ht | exact HQ]. Qed.

(** ** Start-up events and loop events *)

Lemma setup_trace_events os : Forall setup_event (server_setup_trace os).
Proof. repeat constructor. Qed.

Lemma setup_prefix_events os pre :
  pre `prefix_of` server_setup_trace os -> Forall setup_event (pre ++ [failed_to_connect]).
Proof.
  intros [suf Hsuf]. pose proof (setup_trace_events os) as Hall.
  rewrite Hsuf in Hall. apply Forall_app in Hall as [Hpre _].
  apply Forall_app. split; [exact Hpre | repeat constructor].
Qed.

(** Every trace of the process is start-up events followed by loop events. *)
Lemma run_events os conns :
  exists t1 t2, trace (run os conns) = t1 ++ t2 /\
                Forall setup_event t1 /\ Forall loop_event t2.
Proof.
  destruct (setup_passes os) eqn:Hp.
  - exists (server_setup_trace os), (trace (launch conns (initial_server os) (initial_heap os))).
    rewrite (run_ok _ _ Hp), trace_prepend.
    split; [reflexivity|]. split; [apply setup_trace_events|].
    apply (launch_sat conns (initial_server os) (initial_heap os)), zeros_length.
  - destruct (run_exit os conns Hp) as (pre & Hrun & Hpre & _).
    exists (pre ++ [failed_to_connect]), []. rewrite Hrun, app_nil_r.
    split; [reflexivity|]. split; [apply (setup_prefix_events os), Hpre | constructor].
Qed.

(** ** The receive buffer *)

(** C3, as the code has it.  Whenever the process issues a read, the
    receive buffer it passes holds 30000 zero bytes: it is cleared after
    each successful [accept], right before the read, so no byte of an
    earlier connection is there when a read begins.  (The clearing sits at
    that point of the accept stage, not at its start.) *)
Theorem C3_buffer_cleared_before_each_read os conns :
  Forall recv_on_cleared_buffer (trace (run os conns)).
Proof.
  destruct (run_events os conns) as (t1 & t2 & -> & H1 & H2).
  apply Forall_app. split.
  - eapply Forall_impl; [exact H1|]. intros [] He; try exact I. destruct He.
  - eapply Forall_impl; [exact H2|]. intros [] He; try exact I. apply He.
Qed.

(** *** A read that brings data

    A client sends [data], fewer bytes than the buffer holds.  The accept
    stage returns with the buffer holding [data] followed by zeros. *)

Lemma recv_count_data c data :
  recv_res c = RecvData data -> (length data <= Z.to_nat BUFFER_SIZE)%nat ->
  recv_count c 30000 = Z.of_nat (length data) /\
  (forall buf, recv_buffer c 30000 buf = data ++ drop (length data) buf).
Proof.
  intros Hres Hlen. unfold recv_count, recv_buffer. rewrite Hres.
  rewrite take_ge by (unfold BUFFER_SIZE in Hlen; lia). split; reflexivity.
Qed.

Lemma acceptor_data c this h ls data :
  h !! get_socket (ts_base this) = Some ls ->
  length (buffer this) = Z.to_nat BUFFER_SIZE ->
  0 <= accept_ret c ->
  recv_res c = RecvData data ->
  (0 < length data < Z.to_nat BUFFER_SIZE)%nat ->
  acceptor c this h =
  (accept_events ls c ++ read_events c (buffer this)
     ++ hex_events (Z.of_nat (length data)) (buffer_with data),
   Ret (mk_TestServer (ts_base this) (buffer_with data) (accept_ret c), h)).
Proof.
  intros Hls Hlen Hfd Hres Hdata.
  destruct (recv_count_data c data Hres ltac:(lia)) as [Hn Hb].
  rewrite (acceptor_eq _ _ _ _ Hls). cbv zeta.
  rewrite (proj2 (Z.ltb_ge _ _) Hfd), Hn, Hb, (memset_zeros _ Hlen).
  assert (Hbuf : <[Z.to_nat (Z.of_nat (length data)) := x00]>
                   (data ++ drop (length data) zeros) = buffer_with data).
  { unfold zeros, buffer_with. rewrite drop_replicate, Nat2Z.id.
    rewrite insert_app_r_alt by lia. rewrite Nat.sub_diag.
    rewrite insert_replicate. reflexivity. }
  assert (Hl : length (data ++ drop (length data) zeros) = Z.to_nat BUFFER_SIZE).
  { rewrite length_app, length_drop, zeros_length. lia. }
  rewrite Hbuf, Hl, BUFFER_SIZE_nat.
  rewrite (proj2 (Z.ltb_ge _ _) (Nat2Z.is_nonneg _)).
  rewrite (proj2 (Z.eqb_neq _ _)) by lia.
  rewrite (proj2 (Z.ltb_lt _ _)) by lia.
  rewrite <- app_assoc. reflexivity.
Qed.

(** One whole iteration, given how its accept stage ends. *)
Lemma launch_body_Ret c this h ta this1 h1 n1 :
  acceptor c this h = (ta, Ret (this1, h1)) ->
  strlen (buffer this1) = Some n1 ->
  launch_body c this h =
  (waiting_line :: ta ++ handle_trace (buffer this1) n1
     ++ respond_trace c (new_socket this1) ++ [handled_line],
   Ret (this1, h1)).
Proof.
  intros Ha Hn. unfold launch_body, cout. rewrite bind_emit_prepend.
  rewrite (bind_prepend _ _ _ _ _ _ Ha).
  rewrite (bind_prepend _ _ _ _ _ _ (handler_eq _ _ _ Hn)).
  rewrite (bind_prepend _ _ _ _ _ _ (responder_eq _ _ _)), bind_emit_prepend.
  unfold prepend, ret. cbn [fst snd app]. reflexivity.
Qed.

Lemma run_hi :
  outcome (run os_ok [conn_hi]) = Ret (server_after_hi, initial_heap os_ok).
Proof.
  rewrite run_ok by reflexivity. rewrite outcome_prepend. cbn [launch].
  assert (Ha := acceptor_data conn_hi (initial_server os_ok) (initial_heap os_ok)
                  (server_object os_ok) [x68; x69]
                  (lookup_singleton_eq _ _) zeros_length
                  ltac:(vm_compute; discriminate) eq_refl
                  ltac:(cbn [length]; unfold BUFFER_SIZE; lia)).
  assert (Hn : strlen (buffer_with [x68; x69]) = Some 2%nat) by (vm_compute; reflexivity).
  rewrite (bind_prepend _ _ _ _ _ _ (launch_body_Ret _ _ _ _ _ _ _ Ha Hn)).
  reflexivity.
Qed.

(** C3 as stated fails.  A first client sends "hi".  When the accept stage
    of the second iteration starts, the buffer still begins with "hi": it is
    not all zeros.  The second [accept] fails, nothing clears the buffer,
    and the handle stage of that iteration prints the first client's
    bytes. *)
Lemma C3_counterexample :
  outcome (run os_ok [conn_hi]) = Ret (server_after_hi, initial_heap os_ok) /\
  take 3 (buffer server_after_hi) = [x68; x69; x00] /\
  buffer server_after_hi <> replicate (Z.to_nat BUFFER_SIZE) x00 /\
  In (EvCout [OBytes [x68; x69]; OEndl])
     (trace (launch_body conn_accept_fails server_after_hi (initial_heap os_ok))).
Proof.
  split; [exact run_hi|]. split; [vm_compute; reflexivity|]. split.
  - intros H. apply (f_equal (fun l => l !! 0%nat)) in H. vm_compute in H. discriminate.
  - vm_compute. do 6 right. left. reflexivity.
Qed.

(** ** Iterations that fail *)

Lemma iteration_fails_count c :
  iteration_fails c -> accept_ret c < 0 \/ recv_count c 30000 <= 0.
Proof.
  unfold recv_count. intros [H|[H|H]]; [left; exact H | right | right]; rewrite H.
  - lia.
  - rewrite take_nil. cbn [length]. lia.
Qed.

(** What the code does in an iteration whose [accept] fails, or whose read
    fails or yields no bytes.  The accept stage returns early: after the
    failed [accept] it only logs, after the failed or empty read it logs and
    closes the descriptor.  [launch] does not test how the accept stage
    ended: the handle stage and the respond stage run all the same, the
    respond stage on the value [accept] returned.  The iteration returns,
    the invariant holds again, and the loop goes on with the next
    iteration. *)
Lemma failed_iteration_runs_all_stages c this h :
  wf this h ->
  iteration_fails c ->
  exists ls ta this1 n1,
    h !! get_socket (ts_base this) = Some ls /\
    acceptor c this h = (ta, Ret (this1, h)) /\
    (accept_ret c < 0 -> ta = accept_events ls c ++ [accept_failed_line]) /\
    (0 <= accept_ret c ->
     ta = accept_events ls c ++ read_events c (buffer this)
          ++ [read_failed_line c; EvClose (accept_ret c)]) /\
    handler this1 h = (handle_trace (buffer this1) n1, Ret (this1, h)) /\
    handle_trace (buffer this1) n1 <> [] /\
    responder c this1 h = (respond_trace c (accept_ret c), Ret (this1, h)) /\
    launch_body c this h =
    (waiting_line :: ta ++ handle_trace (buffer this1) n1
       ++ respond_trace c (accept_ret c) ++ [handled_line],
     Ret (this1, h)) /\
    wf this1 h /\
    forall conns,
      launch (c :: conns) this h =
      prepend (waiting_line :: ta ++ handle_trace (buffer this1) n1
                 ++ respond_trace c (accept_ret c) ++ [handled_line])
              (launch conns this1 h).
Proof.
  intros Hwf Hfail. apply iteration_fails_count in Hfail.
  destruct (launch_body_wf c this h Hwf)
    as [(ta & this1 & n1 & Ha & Hwf1 & Hbase & Hfd & Hn1 & Hh & Hr & Hb)
       | (ta & _ & Hfd & Hfull & _)].
  2: { unfold BUFFER_SIZE in Hfull. lia. }
  destruct Hwf as (Hlen & Hnul & [ls Hls]).
  exists ls, ta, this1, n1. split; [exact Hls|]. split; [exact Ha|].
  rewrite (acceptor_eq _ _ _ _ Hls) in Ha. cbv zeta in Ha.
  split; [|split].
  - intros Hneg. rewrite (proj2 (Z.ltb_lt _ _) Hneg) in Ha.
    injection Ha as <- _. reflexivity.
  - intros Hpos. rewrite (proj2 (Z.ltb_ge _ _) Hpos) in Ha.
    assert (Hle : recv_count c 30000 <= 0) by lia.
    unfold read_failed_line.
    destruct (recv_count c 30000 <? 0) eqn:Hlt.
    + injection Ha as <- _. reflexivity.
    + apply Z.ltb_ge in Hlt. rewrite (proj2 (Z.eqb_eq _ _)) in Ha by lia.
      injection Ha as <- _. reflexivity.
  - split; [exact Hh|]. split.
    { unfold handle_trace. destruct (0 <? Z.of_nat n1); discriminate. }
    split; [exact Hr|]. split; [exact Hb|]. split; [exact Hwf1|].
    intros conns. apply launch_cons, Hb.
Qed.

(** C2 (the code departs from the claim).  A client connects on
    descriptor 4 and closes without sending: the read returns 0 and the
    accept stage gives the connection up, [close(4)], and returns.  The
    iteration is not skipped: the handle stage reports an empty request and
    the respond stage calls [send], [shutdown] and [close] on descriptor 4,
    which is closed already.  Likewise when [accept] itself fails with -1:
    the handle stage runs and the respond stage calls [send], [shutdown]
    and [close] on descriptor -1. *)
Theorem C2_failed_iteration_not_skipped :
  recv_res conn_silent = RecvData [] /\
  launch_body conn_silent (initial_server os_ok) (initial_heap os_ok) =
  ([waiting_line;
    EvCout [OStr "Attempting to accept connection..."; OEndl];
    EvAccept 3 addr_3000 4;
    EvCout [OStr "Connection accepted on socket: "; OInt 4; OEndl];
    EvSetsockopt 4 SOL_SOCKET SO_RCVTIMEO (mk_timeval 5 0);
    EvCout [OStr "Reading from socket..."; OEndl];
    EvRecv 4 zeros 30000 0 0;
    EvCerr [OStr "Client closed connection"; OEndl];
    EvClose 4;
    EvCout [OStr "Empty request received"; OEndl];
    EvSend 4 response_bytes 104 0 (-1);
    EvCerr [OStr "Failed to send response: "; OStrerror; OEndl];
    EvShutdown 4 SHUT_RDWR;
    EvClose 4;
    handled_line],
   Ret (mk_TestServer (mk_SimpleServer 4096) zeros 4, initial_heap os_ok)) /\
  accept_ret conn_accept_fails < 0 /\
  launch_body conn_accept_fails (initial_server os_ok) (initial_heap os_ok) =
  ([waiting_line;
    EvCout [OStr "Attempting to accept connection..."; OEndl];
    EvAccept 3 addr_3000 (-1);
    accept_failed_line;
    EvCout [OStr "Empty request received"; OEndl];
    EvSend (-1) response_bytes 104 0 (-1);
    EvCerr [OStr "Failed to send response: "; OStrerror; OEndl];
    EvShutdown (-1) SHUT_RDWR;
    EvClose (-1);
    handled_line],
   Ret (set_new_socket (-1) (initial_server os_ok), initial_heap os_ok)).
Proof.
  assert (Ha := acceptor_eq conn_silent (initial_server os_ok) (initial_heap os_ok)
                  (server_object os_ok) (lookup_singleton_eq _ _)).
  assert (Hb := acceptor_eq conn_accept_fails (initial_server os_ok) (initial_heap os_ok)
                  (server_object os_ok) (lookup_singleton_eq _ _)).
  cbv zeta in Ha, Hb.
  split; [reflexivity|]. split; [|split; [reflexivity|]].
  - assert (Hn : recv_count conn_silent 30000 = 0) by (vm_compute; reflexivity).
    change (accept_ret conn_silent <? 0) with false in Ha.
    unfold read_events in Ha. cbn [buffer initial_server] in Ha.
    rewrite Hn, (memset_zeros _ zeros_length), recv_buffer_nothing in Ha by (rewrite Hn; lia).
    change (0 <? 0) with false in Ha. change (0 =? 0) with true in Ha. cbv iota in Ha.
    rewrite (launch_body_Ret _ _ _ _ _ _ 0%nat Ha strlen_zeros). reflexivity.
  - change (accept_ret conn_accept_fails <? 0) with true in Hb. cbv iota in Hb.
    rewrite (launch_body_Ret _ _ _ _ _ _ 0%nat Hb strlen_zeros). reflexivity.
Qed.

(** ** The response *)

Lemma response_bytes_spec : response_bytes = spec_response.
Proof. vm_compute. reflexivity. Qed.

(** C4.  From any state, whatever the buffer holds and whatever [send]
    returns, the respond stage issues exactly one [send] of the literal
    response of the specification, all 104 bytes of it, on the connection
    descriptor, then [shutdown] in both directions, then [close], and
    returns with the server unchanged.  (Between [send] and [shutdown] it
    logs the result of [send].) *)
Theorem C4_fixed_response c this h :
  responder c this h =
  ([EvSend (new_socket this) spec_response 104 0 (send_ret c);
    sent_line (send_ret c);
    EvShutdown (new_socket this) SHUT_RDWR;
    EvClose (new_socket this)],
   Ret (this, h)) /\
  Z.of_nat (length spec_response) = 104.
Proof.
  split.
  - rewrite responder_eq. unfold respond_trace. rewrite response_bytes_spec. reflexivity.
  - vm_compute. reflexivity.
Qed.

(** ** The listening socket of a server *)

Lemma count_socket_calls_loop t : Forall loop_event t -> count_socket_calls t = 0%nat.
Proof.
  induction 1 as [|e t He _ IH]; [reflexivity|].
  destruct e; cbn [count_socket_calls]; try exact IH. destruct He.
Qed.

Lemma handler_frame this h :
  sat (fun _ => True) (fun this' h' => this' = this /\ h' = h) (handler this h).
Proof. apply handler_sat. auto. Qed.

(** C8.  A run that is past start-up has made exactly one listening
    socket: one [socket] call was issued, the heap holds one object, the one
    the [SimpleServer] constructor made, and the server's pointer refers to
    it.  No operation of the server changes the pointer or the heap
    afterwards: not the accept stage, the handle stage or the respond
    stage, and so not [launch], over any number of iterations and from any
    state. *)
Theorem C8_listening_socket_never_replaced :
  (forall os conns t this h,
      run os conns = (t, Ret (this, h)) ->
      get_socket (ts_base this) = new_ret os /\
      h = {[ new_ret os := server_object os ]} /\
      count_socket_calls t = 1%nat) /\
  (forall c this h t this' h',
      acceptor c this h = (t, Ret (this', h')) ->
      get_socket (ts_base this') = get_socket (ts_base this) /\ h' = h) /\
  (forall this h t this' h',
      handler this h = (t, Ret (this', h')) ->
      get_socket (ts_base this') = get_socket (ts_base this) /\ h' = h) /\
  (forall c this h t this' h',
      responder c this h = (t, Ret (this', h')) ->
      get_socket (ts_base this') = get_socket (ts_base this) /\ h' = h) /\
  (forall conns this h t this' h',
      launch conns this h = (t, Ret (this', h')) ->
      get_socket (ts_base this') = get_socket (ts_base this) /\ h' = h).
Proof.
  split; [|split; [|split; [|split]]].
  - intros os conns t this h Hrun.
    destruct (run_Ret _ _ _ _ _ Hrun) as (_ & _ & Hh & Hb & tl & Hl & ->).
    split; [rewrite Hb; reflexivity|]. split; [exact Hh|].
    assert (Hloop : Forall loop_event tl).
    { apply (sat_Ret _ _ _ _ _ _
               (launch_sat conns (initial_server os) (initial_heap os) zeros_length) Hl). }
    unfold server_setup_trace, setup_trace. cbn [app count_socket_calls].
    rewrite (count_socket_calls_loop _ Hloop). reflexivity.
  - intros c this h t this' h' Hrun.
    destruct (sat_Ret _ _ _ _ _ _ (acceptor_frame c this h) Hrun) as (_ & -> & ->).
    split; reflexivity.
  - intros this h t this' h' Hrun.
    destruct (sat_Ret _ _ _ _ _ _ (handler_frame this h) Hrun) as (_ & -> & ->).
    split; reflexivity.
  - intros c this h t this' h'. rewrite responder_eq. intros [= _ <- <-].
    split; reflexivity.
  - intros conns this h t this' h' Hrun.
    destruct (sat_Ret _ _ _ _ _ _ (launch_frame conns this h) Hrun) as (_ & -> & ->).
    split; reflexivity.
Qed.

Lemma C8_listening_socket_never_replaced_witness :
  outcome (run os_ok [conn_hi]) = Ret (server_after_hi, initial_heap os_ok) /\
  get_socket (ts_base server_after_hi) = new_ret os_ok /\
  initial_heap os_ok = {[ new_ret os_ok := server_object os_ok ]}.
Proof.
  split; [exact run_hi|].
  destruct C8_listening_socket_never_replaced as (Hrun & _).
  destruct (Hrun os_ok [conn_hi] (trace (run os_ok [conn_hi])) server_after_hi
                 (initial_heap os_ok)) as (Hp & Hh & _).
  - rewrite (surjective_run (run os_ok [conn_hi])) at 1. rewrite run_hi. reflexivity.
  - split; [exact Hp | exact Hh].
Defined.

(** ** The accept stage after a successful [accept] *)

Lemma hex_events_no_read n buf : Forall no_read_no_option (hex_events n buf).
Proof.
  unfold hex_events. repeat (apply Forall_cons; split; [split; reflexivity|]).
  apply Forall_app. split; [|repeat constructor].
  apply Forall_forall. intros e He.
  apply list_elem_of_In, in_map_iff in He as (b & <- & _). split; reflexivity.
Qed.

Lemma acceptor_after_accept c this h ls :
  h !! get_socket (ts_base this) = Some ls ->
  0 <= accept_ret c ->
  exists rest,
    trace (acceptor c this h) = accept_events ls c ++ read_events c (buffer this) ++ rest /\
    Forall no_read_no_option rest.
Proof.
  intros Hls Hfd. rewrite (acceptor_eq _ _ _ _ Hls). cbv zeta.
  rewrite (proj2 (Z.ltb_ge _ _) Hfd).
  destruct (recv_count c 30000 <? 0); [|destruct (recv_count c 30000 =? 0);
    [|destruct (recv_count c 30000 <? _)]];
    cbn [trace fst]; rewrite <- app_assoc; eexists; (split; [reflexivity|]).
  - repeat constructor.
  - repeat constructor.
  - apply hex_events_no_read.
  - repeat constructor.
Qed.

Lemma acceptor_starts c this h ls :
  h !! get_socket (ts_base this) = Some ls ->
  exists rest, trace (acceptor c this h) = accept_events ls c ++ rest.
Proof.
  intros Hls. destruct (Z.lt_ge_cases (accept_ret c) 0) as [Hneg|Hpos].
  - rewrite (acceptor_eq _ _ _ _ Hls). cbv zeta. rewrite (proj2 (Z.ltb_lt _ _) Hneg).
    eexists. reflexivity.
  - destruct (acceptor_after_accept c this h ls Hls Hpos) as (rest & -> & _).
    eexists. reflexivity.
Qed.

(** C7.  Start-up calls [socket(AF_INET, SOCK_STREAM, 0)], binds the
    descriptor to family [AF_INET], port [htons(3000)] and address
    [htonl(INADDR_ANY)], and listens with backlog 10.  In memory the port
    is the two bytes 0x0B 0xB8, most significant first, on either kind of
    host.  After every successful [accept], in any state a run can reach,
    the accept stage sets [SO_RCVTIMEO] at level [SOL_SOCKET] to 5 seconds
    and 0 microseconds on the new descriptor, then issues one [recv] on it
    for 30000 bytes, the size of the buffer, which yields at most 30000;
    what follows in that stage has no further read and sets no option. *)
Theorem C7_server_parameters os :
  setup_passes os = true ->
  trace (run os []) =
  [EvSocket AF_INET SOCK_STREAM 0 (socket_ret os);
   EvBind (socket_ret os)
          (mk_sockaddr_in AF_INET (htons (host os) 3000) (htonl (host os) INADDR_ANY)
                          (sin_zero (address (bs_base (ls_base (raw_storage os))))))
          (bind_ret os);
   EvListen (socket_ret os) 10 (listen_ret os)] /\
  mem_u16 (host os) (htons (host os) 3000) = [11; 184] /\
  mem_u32 (host os) (htonl (host os) INADDR_ANY) = [0; 0; 0; 0] /\
  BUFFER_SIZE = 30000 /\
  (forall conns t this h c,
      run os conns = (t, Ret (this, h)) ->
      0 <= accept_ret c ->
      exists ls rest,
        h !! get_socket (ts_base this) = Some ls /\
        sock (bs_base (ls_base ls)) = socket_ret os /\
        trace (acceptor c this h) =
        [EvCout [OStr "Attempting to accept connection..."; OEndl];
         EvAccept (socket_ret os) (address (bs_base (ls_base ls))) (accept_ret c);
         EvCout [OStr "Connection accepted on socket: "; OInt (accept_ret c); OEndl];
         EvSetsockopt (accept_ret c) SOL_SOCKET SO_RCVTIMEO (mk_timeval 5 0);
         EvCout [OStr "Reading from socket..."; OEndl];
         EvRecv (accept_ret c) (replicate (Z.to_nat BUFFER_SIZE) x00) 30000 0
                (recv_count c 30000)]
        ++ rest /\
        recv_count c 30000 <= 30000 /\
        Forall no_read_no_option rest).
Proof.
  intros Hp. split; [|split; [|split; [|split]]].
  - rewrite (run_ok _ _ Hp). cbn [launch]. reflexivity.
  - destruct (host os); vm_compute; reflexivity.
  - destruct (host os); vm_compute; reflexivity.
  - reflexivity.
  - intros conns t this h c Hrun Hfd.
    destruct (run_Ret _ _ _ _ _ Hrun) as (_ & Hwf & Hh & Hb & _).
    assert (Hls : h !! get_socket (ts_base this) = Some (server_object os)).
    { rewrite Hh, Hb. apply lookup_singleton_eq. }
    destruct (acceptor_after_accept c this h _ Hls Hfd) as (rest & Ht & Hrest).
    exists (server_object os), rest. split; [exact Hls|]. split; [reflexivity|].
    split; [|split; [|exact Hrest]].
    + rewrite Ht. unfold read_events. destruct Hwf as (Hlen & _).
      rewrite (memset_zeros _ Hlen). reflexivity.
    + pose proof (recv_count_bound c 30000 ltac:(lia)). lia.
Qed.

Lemma C7_server_parameters_witness :
  setup_passes os_ok = true /\
  trace (run os_ok []) =
  [EvSocket AF_INET SOCK_STREAM 0 3; EvBind 3 addr_3000 0; EvListen 3 10 0] /\
  mem_u16 LittleEndian (htons LittleEndian 3000) = [11; 184].
Proof.
  split; [reflexivity|].
  destruct (C7_server_parameters os_ok eq_refl) as (Ht & Hport & _).
  split; [exact Ht | exact Hport].
Defined.

(** ** The terminating NUL *)

(** C9.  A client's data has arrived after a successful [accept]; the read
    returns [min 30000 (length data)] bytes.  If that is fewer than 30000,
    the store of the terminating NUL at index [bytes_read] is inside the
    buffer: the stage returns, the buffer holds the data followed by zeros
    and still has 30000 bytes.  If the read returns 30000 bytes, the store
    is at index 30000, one past the last element (index 29999) of the
    buffer: it is out of bounds.  In general a store into a 30000-byte
    array is inside the array exactly for the indices from 0 to 29999. *)
Theorem C9_nul_terminator_bounds c this h data :
  wf this h ->
  0 <= accept_ret c ->
  recv_res c = RecvData data ->
  data <> [] ->
  recv_count c 30000 = Z.min 30000 (Z.of_nat (length data)) /\
  (Z.of_nat (length data) < BUFFER_SIZE ->
   exists ta this1,
     acceptor c this h = (ta, Ret (this1, h)) /\
     buffer this1 = data ++ replicate (Z.to_nat BUFFER_SIZE - length data) x00 /\
     buffer this1 !! length data = Some x00 /\
     length (buffer this1) = Z.to_nat BUFFER_SIZE) /\
  (BUFFER_SIZE <= Z.of_nat (length data) ->
   recv_count c 30000 = BUFFER_SIZE /\
   BUFFER_SIZE = (BUFFER_SIZE - 1) + 1 /\
   exists ta, acceptor c this h = (ta, Fault (OutOfBounds BUFFER_SIZE))) /\
  (forall a i v h0,
      length a = Z.to_nat BUFFER_SIZE ->
      (exists a', array_store a i v h0 = ([], Ret (a', h0))) <-> 0 <= i <= BUFFER_SIZE - 1).
Proof.
  intros Hwf Hfd Hres Hdata.
  assert (Hcount : recv_count c 30000 = Z.min 30000 (Z.of_nat (length data))).
  { unfold recv_count. rewrite Hres, length_take. lia. }
  assert (Hne : (0 < length data)%nat) by (destruct data; [congruence | cbn; lia]).
  split; [exact Hcount|]. split; [|split].
  - intros Hlt. destruct Hwf as (Hlen & _ & [ls Hls]).
    rewrite (acceptor_data c this h ls data Hls Hlen Hfd Hres)
      by (unfold BUFFER_SIZE in *; lia).
    eexists _, _. split; [reflexivity|]. cbn [buffer]. unfold buffer_with.
    split; [reflexivity|]. split.
    + rewrite lookup_app_r by lia. rewrite Nat.sub_diag.
      apply lookup_replicate_2. unfold BUFFER_SIZE in *. lia.
    + rewrite length_app, length_replicate. unfold BUFFER_SIZE in *. lia.
  - intros Hge.
    assert (Hfull : recv_count c 30000 = BUFFER_SIZE) by (unfold BUFFER_SIZE in *; lia).
    split; [exact Hfull|]. split; [lia|].
    destruct (acceptor_wf c this h Hwf)
      as [(ta & this1 & Ha & _) | (ta & Ha & _)]; [|exists ta; exact Ha].
    exfalso. destruct Hwf as (Hlen & _ & [ls Hls]).
    rewrite (acceptor_eq _ _ _ _ Hls) in Ha. cbv zeta in Ha.
    rewrite (proj2 (Z.ltb_ge _ _) Hfd), Hfull in Ha.
    rewrite recv_buffer_length, memset_length, Hlen, BUFFER_SIZE_nat in Ha
      by (rewrite memset_length, Hlen; unfold BUFFER_SIZE; lia).
    rewrite Z.ltb_irrefl in Ha.
    change (BUFFER_SIZE <? 0) with false in Ha.
    change (BUFFER_SIZE =? 0) with false in Ha. discriminate.
  - intros a i v h0 Hlen. unfold array_store. rewrite Hlen, BUFFER_SIZE_nat.
    destruct (0 <=? i) eqn:H0; destruct (i <? BUFFER_SIZE) eqn:H1; cbn [andb];
      try apply Z.leb_le in H0; try apply Z.leb_gt in H0;
      try apply Z.ltb_lt in H1; try apply Z.ltb_ge in H1;
      (split; [intros [a' Ha] | intros Hi]);
      try discriminate; try lia.
    eexists. reflexivity.
Qed.

Lemma C9_nul_terminator_bounds_witness :
  wf (initial_server os_ok) (initial_heap os_ok) /\
  0 <= accept_ret conn_full /\
  recv_res conn_full = RecvData (replicate (Z.to_nat BUFFER_SIZE) x41) /\
  replicate (Z.to_nat BUFFER_SIZE) x41 <> [] /\
  exists ta,
    acceptor conn_full (initial_server os_ok) (initial_heap os_ok)
    = (ta, Fault (OutOfBounds BUFFER_SIZE)).
Proof.
  assert (H1 : 0 <= accept_ret conn_full) by (vm_compute; discriminate).
  assert (H2 : replicate (Z.to_nat BUFFER_SIZE) x41 <> []).
  { intros H. apply (f_equal length) in H. rewrite length_replicate in H.
    unfold BUFFER_SIZE in H. cbn [length] in H. lia. }
  split; [exact (initial_wf os_ok)|]. split; [exact H1|]. split; [reflexivity|].
  split; [exact H2|].
  destruct (C9_nul_terminator_bounds conn_full (initial_server os_ok) (initial_heap os_ok)
              (replicate (Z.to_nat BUFFER_SIZE) x41) (initial_wf os_ok) H1 eq_refl H2)
    as (_ & _ & Hfull & _).
  apply Hfull. rewrite length_replicate, BUFFER_SIZE_nat. apply Z.le_refl.
Defined.

(** ** The order of the stages *)

Lemma launch_body_starts c this h ls :
  h !! get_socket (ts_base this) = Some ls ->
  exists more, trace (launch_body c this h) = [waiting_line] ++ accept_events ls c ++ more.
Proof.
  intros Hls. unfold launch_body, cout.
  rewrite bind_emit_prepend, trace_prepend, trace_bind. fold waiting_line.
  destruct (acceptor_starts c this h ls Hls) as (rest & ->).
  rewrite <- app_assoc. eexists. reflexivity.
Qed.

Lemma launch_body_hi :
  launch_body conn_hi (initial_server os_ok) (initial_heap os_ok)
  = (trace_hi, Ret (server_after_hi, initial_heap os_ok)).
Proof.
  unfold trace_hi.
  assert (Ha := acceptor_data conn_hi (initial_server os_ok) (initial_heap os_ok)
                  (server_object os_ok) [x68; x69]
                  (lookup_singleton_eq _ _) zeros_length
                  ltac:(vm_compute; discriminate) eq_refl
                  ltac:(cbn [length]; unfold BUFFER_SIZE; lia)).
  assert (Hn : strlen (buffer_with [x68; x69]) = Some 2%nat) by (vm_compute; reflexivity).
  rewrite (launch_body_Ret _ _ _ _ _ _ _ Ha Hn). reflexivity.
Qed.

(** C6.  Take any run of the loop from a state that satisfies the
    invariant, and in it an iteration for a connection A that completes,
    followed by an iteration for a connection B.  The trace of A's
    iteration is: the events of its accept stage, all of them, then the
    events of its handle stage, all of them, then those of its respond
    stage, which end with the [close] of A's descriptor.  Each stage starts
    from the state and heap the stage before it returned.  In the trace of
    the whole run, after everything the earlier iterations did, A's
    iteration comes complete, and only after its last event does B's
    iteration begin, with the [accept] call for B. *)
Theorem C6_strictly_sequential pre a b rest this h t0 thisP hP tA thisA hA :
  wf this h ->
  launch pre this h = (t0, Ret (thisP, hP)) ->
  launch_body a thisP hP = (tA, Ret (thisA, hA)) ->
  exists ta n ls tb,
    acceptor a thisP hP = (ta, Ret (thisA, hA)) /\
    handler thisA hA = (handle_trace (buffer thisA) n, Ret (thisA, hA)) /\
    responder a thisA hA = (respond_trace a (new_socket thisA), Ret (thisA, hA)) /\
    tA = [waiting_line] ++ ta ++ handle_trace (buffer thisA) n
           ++ respond_trace a (new_socket thisA) ++ [handled_line] /\
    last (respond_trace a (new_socket thisA)) = Some (EvClose (new_socket thisA)) /\
    trace (launch (pre ++ a :: b :: rest) this h)
    = t0 ++ tA ++ [waiting_line] ++ accept_events ls b ++ tb.
Proof.
  intros Hwf Hpre HA.
  destruct (launch_wf _ _ _ _ _ _ Hwf Hpre) as (HwfP & -> & HbP).
  destruct (launch_body_wf a thisP h HwfP)
    as [(ta & this1 & n1 & Ha & Hwf1 & Hbase & Hfd & Hn1 & Hh & Hr & Hb)
       | (ta & _ & _ & _ & Hb)];
    rewrite Hb in HA; [|discriminate].
  injection HA as <- <- <-. rewrite <- Hfd in Hr, Hb |- *.
  destruct Hwf1 as (Hlen1 & Hnul1 & [ls Hls]).
  destruct (launch_body_starts b this1 h ls Hls) as (more & Hmore).
  exists ta, n1, ls.
  eexists. split; [exact Ha|]. split; [exact Hh|]. split; [exact Hr|].
  split; [reflexivity|]. split; [reflexivity|].
  rewrite (launch_app _ _ _ _ _ _ _ Hpre), (launch_cons _ _ _ _ _ _ _ Hb).
  rewrite !trace_prepend. cbn [launch]. rewrite trace_bind, Hmore.
  rewrite <- !app_assoc. reflexivity.
Qed.

Lemma C6_strictly_sequential_witness :
  wf (initial_server os_ok) (initial_heap os_ok) /\
  launch [] (initial_server os_ok) (initial_heap os_ok)
  = ([], Ret (initial_server os_ok, initial_heap os_ok)) /\
  launch_body conn_hi (initial_server os_ok) (initial_heap os_ok)
  = (trace_hi, Ret (server_after_hi, initial_heap os_ok)) /\
  exists ls tb,
    trace (launch ([] ++ conn_hi :: conn_silent :: [])
                  (initial_server os_ok) (initial_heap os_ok))
    = [] ++ trace_hi ++ [waiting_line] ++ accept_events ls conn_silent ++ tb.
Proof.
  split; [exact (initial_wf os_ok)|]. split; [reflexivity|].
  split; [exact launch_body_hi|].
  destruct (C6_strictly_sequential [] conn_hi conn_silent []
              (initial_server os_ok) (initial_heap os_ok) []
              (initial_server os_ok) (initial_heap os_ok)
              trace_hi server_after_hi (initial_heap os_ok)
              (initial_wf os_ok) eq_refl launch_body_hi)
    as (ta & n & ls & tb & _ & _ & _ & _ & _ & Ht).
  exists ls, tb. exact Ht.
Defined.

(** * Runs on concrete inputs *)

Example htons_3000 : htons LittleEndian 3000 = 47115 /\ htons BigEndian 3000 = 3000.
Proof. split; reflexivity. Qed.

Example strlen_hi : strlen [x68; x69; x00; x41] = Some 2%nat /\ strlen [x68; x69] = None.
Proof. split; reflexivity. Qed.

Example memset_front : memset [x41; x42; x43] x00 2 = [x00; x00; x43].
Proof. reflexivity. Qed.

Example run_socket_fails :
  run os_socket_fails [conn_hi]
  = ([EvSocket AF_INET SOCK_STREAM 0 (-1); failed_to_connect], Exit EXIT_FAILURE).
Proof. reflexivity. Qed.

Example run_listen_fails :
  run os_listen_fails [conn_hi]
  = ([EvSocket AF_INET SOCK_STREAM 0 3; EvBind 3 addr_3000 0; EvListen 3 10 (-1);
      failed_to_connect],
     Exit EXIT_FAILURE).
Proof. reflexivity. Qed.

Example respond_after_hi :
  responder conn_hi server_after_hi (initial_heap os_ok)
  = ([EvSend 4 response_bytes 104 0 104;
      EvCout [OStr "Sent "; OInt 104; OStr " bytes as response"; OEndl];
      EvShutdown 4 SHUT_RDWR;
      EvClose 4],
     Ret (server_after_hi, initial_heap os_ok)).
Proof. rewrite responder_eq. reflexivity. Qed.

Example handle_after_hi :
  trace (handler server_after_hi (initial_heap os_ok))
  = [EvCout [OStr (LF ++ "Received Request (")%string; OInt 2; OStr " bytes):"; OEndl];
     EvCout [OStr "--- Begin Request ---"; OEndl];
     EvCout [OBytes [x68; x69]; OEndl];
     EvCout [OStr "--- End Request ---"; OEndl]].
Proof. vm_compute. reflexivity. Qed.

(** * Further properties *)

(** ** The listening layer *)

(** X1.  Unlike the binding layer, the listening layer tests the value it
    has just stored.  Once the [BindingSocket] part is constructed, the
    constructor of [ListeningSocket] calls [listen] on the descriptor of
    that part with the backlog it was given and nothing else; it exits with
    [EXIT_FAILURE] exactly when [listen] returned a negative number, and
    otherwise returns an object whose [get_listening] is the result of
    [listen] and whose [get_backlog] is the constructor's argument. *)
Theorem X1_listening_socket_checks_listen
    os this domain service protocol port interface bcklg h tB base hB :
  BindingSocket_ctor os (ls_base this) domain service protocol port interface h
  = (tB, Ret (base, hB)) ->
  (listen_ret os < 0 ->
   ListeningSocket_ctor os this domain service protocol port interface bcklg h
   = (tB ++ [EvListen (get_sock (bs_base base)) bcklg (listen_ret os); failed_to_connect],
      Exit EXIT_FAILURE)) /\
  (0 <= listen_ret os ->
   exists ls,
     ListeningSocket_ctor os this domain service protocol port interface bcklg h
     = (tB ++ [EvListen (get_sock (bs_base base)) bcklg (listen_ret os)], Ret (ls, hB)) /\
     ls_base ls = base /\
     get_listening ls = listen_ret os /\
     get_backlog ls = bcklg).
Proof.
  intros HB. unfold ListeningSocket_ctor. cbv zeta.
  rewrite (bind_prepend _ _ _ _ _ _ HB).
  unfold start_listening. rewrite bind_assoc, bind_emit_prepend, bind_ret_l.
  cbn [listening ls_base backlog]. unfold bind. rewrite test_connection_eq.
  split.
  - intros Hneg. rewrite (proj2 (Z.ltb_lt _ _) Hneg). reflexivity.
  - intros Hpos. rewrite (proj2 (Z.ltb_ge _ _) Hpos).
    eexists. split; [reflexivity|]. repeat split.
Qed.

Lemma X1_listening_socket_checks_listen_witness :
  BindingSocket_ctor os_listen_fails (ls_base raw_zero) AF_INET SOCK_STREAM 0 3000 INADDR_ANY ∅
  = ([EvSocket AF_INET SOCK_STREAM 0 3; EvBind 3 addr_3000 0],
     Ret (mk_BindingSocket (mk_SimpleSocket addr_3000 3 0) 0, ∅)) /\
  listen_ret os_listen_fails < 0 /\
  ListeningSocket_ctor os_listen_fails raw_zero AF_INET SOCK_STREAM 0 3000 INADDR_ANY 10 ∅
  = ([EvSocket AF_INET SOCK_STREAM 0 3; EvBind 3 addr_3000 0]
       ++ [EvListen 3 10 (-1); failed_to_connect],
     Exit EXIT_FAILURE).
Proof.
  assert (HB : BindingSocket_ctor os_listen_fails (ls_base raw_zero)
                 AF_INET SOCK_STREAM 0 3000 INADDR_ANY ∅
               = ([EvSocket AF_INET SOCK_STREAM 0 3; EvBind 3 addr_3000 0],
                  Ret (mk_BindingSocket (mk_SimpleSocket addr_3000 3 0) 0, ∅)))
    by reflexivity.
  assert (Hneg : listen_ret os_listen_fails < 0) by reflexivity.
  split; [exact HB|]. split; [exact Hneg|].
  exact (proj1 (X1_listening_socket_checks_listen os_listen_fails raw_zero
                  AF_INET SOCK_STREAM 0 3000 INADDR_ANY 10 ∅ _ _ _ HB) Hneg).
Defined.

(** ** The address structure *)

Lemma lor_shifted a b n :
  0 <= n -> 0 <= b < 2 ^ n -> Z.lor (a * 2 ^ n) b = a * 2 ^ n + b.
Proof.
  intros Hn Hb. symmetry. apply Z.add_nocarry_lor.
  apply Z.bits_inj'. intros m Hm. rewrite Z.land_spec, Z.bits_0.
  destruct (Z.lt_ge_cases m n) as [Hlt|Hge].
  - rewrite Z.mul_pow2_bits_low by lia. reflexivity.
  - rewrite <- (Z.mod_small b (2 ^ n)) by lia.
    rewrite Z.mod_pow2_bits_high by lia. apply andb_false_r.
Qed.

Lemma land_255 a : Z.land a 255 = a mod 256.
Proof. change 255 with (Z.ones 8). rewrite Z.land_ones by lia. reflexivity. Qed.

Lemma mem_u16_BigEndian x :
  mem_u16 BigEndian x = [(x / 256) mod 256; x mod 256].
Proof.
  unfold mem_u16. rewrite !land_255, Z.shiftr_div_pow2 by lia. reflexivity.
Qed.

Lemma bswap16_eq x : bswap16 x = (x mod 256) * 256 + (x / 256) mod 256.
Proof.
  unfold bswap16. rewrite !land_255, Z.shiftr_div_pow2, Z.shiftl_mul_pow2 by lia.
  apply (lor_shifted _ _ 8); [lia|]. apply Z.mod_pos_bound. lia.
Qed.

Lemma mem_u16_htons host x :
  mem_u16 host (htons host x) = [(x mod 65536) / 256; x mod 256].
Proof.
  unfold htons. cbv zeta.
  assert (Hx : 0 <= x mod 65536 < 65536) by (apply Z.mod_pos_bound; lia).
  destruct host.
  - unfold mem_u16. rewrite !land_255, Z.shiftr_div_pow2, bswap16_eq by lia.
    change (2 ^ 8) with 256.
    repeat (apply (f_equal2 cons); [Z.div_mod_to_equations; lia|]); reflexivity.
  - rewrite mem_u16_BigEndian.
    repeat (apply (f_equal2 cons); [Z.div_mod_to_equations; lia|]); reflexivity.
Qed.

Lemma bswap32_eq x :
  bswap32 x = (x mod 256) * 16777216 + ((x / 256) mod 256) * 65536
              + ((x / 65536) mod 256) * 256 + (x / 16777216) mod 256.
Proof.
  unfold bswap32. rewrite !land_255, !Z.shiftr_div_pow2, !Z.shiftl_mul_pow2 by lia.
  pose proof (Z.mod_pos_bound x 256 ltac:(lia)) as H0.
  pose proof (Z.mod_pos_bound (x / 2 ^ 8) 256 ltac:(lia)) as H1.
  pose proof (Z.mod_pos_bound (x / 2 ^ 16) 256 ltac:(lia)) as H2.
  pose proof (Z.mod_pos_bound (x / 2 ^ 24) 256 ltac:(lia)) as H3.
  rewrite (lor_shifted (x / 2 ^ 16 mod 256) (x / 2 ^ 24 mod 256) 8) by lia.
  rewrite (lor_shifted (x mod 256) (x / 2 ^ 8 mod 256 * 2 ^ 16) 24) by lia.
  replace (x mod 256 * 2 ^ 24 + x / 2 ^ 8 mod 256 * 2 ^ 16)
    with ((x mod 256 * 256 + x / 2 ^ 8 mod 256) * 2 ^ 16) by lia.
  rewrite lor_shifted by lia.
  change (2 ^ 8) with 256. change (2 ^ 16) with 65536. change (2 ^ 24) with 16777216.
  lia.
Qed.

Lemma mem_u32_htonl host x :
  mem_u32 host (htonl host x)
  = [(x mod 4294967296) / 16777216; (x / 65536) mod 256; (x / 256) mod 256; x mod 256].
Proof.
  unfold htonl. cbv zeta.
  assert (Hx : 0 <= x mod 4294967296 < 4294967296) by (apply Z.mod_pos_bound; lia).
  destruct host; unfold mem_u32; rewrite !land_255, !Z.shiftr_div_pow2 by lia;
    rewrite ?bswap32_eq;
    change (2 ^ (8 * 0)) with 1; change (2 ^ (8 * 1)) with 256;
    change (2 ^ (8 * 2)) with 65536; change (2 ^ (8 * 3)) with 16777216;
    repeat (apply (f_equal2 cons); [Z.div_mod_to_equations; lia|]); reflexivity.
Qed.

(** X2.  When the constructor of [SimpleSocket] returns, the address
    structure holds the family reduced to 16 bits, and the port and the
    interface in network byte order: on either kind of host the two bytes
    of [sin_port] in memory are the high byte and the low byte of the port
    modulo 65536, and the four bytes of [s_addr] are those of the interface
    modulo 2^32, most significant first.  The padding is left as found, the
    descriptor is the non-negative result of [socket], which was called with
    the unreduced domain, and [connection] is not assigned.  A port that
    differs by a multiple of 65536, or an interface that differs by a
    multiple of 2^32, constructs the same object. *)
Theorem X2_address_in_network_order
    os this domain service protocol port interface h t o h' :
  SimpleSocket_ctor os this domain service protocol port interface h = (t, Ret (o, h')) ->
  t = [EvSocket domain service protocol (socket_ret os)] /\
  get_sock o = socket_ret os /\ 0 <= get_sock o /\
  connection o = connection this /\
  sin_family (get_address o) = domain mod 65536 /\
  mem_u16 (host os) (sin_port (get_address o)) = [(port mod 65536) / 256; port mod 256] /\
  mem_u32 (host os) (sin_addr (get_address o))
  = [(interface mod 4294967296) / 16777216; (interface / 65536) mod 256;
     (interface / 256) mod 256; interface mod 256] /\
  sin_zero (get_address o) = sin_zero (address this) /\
  (forall k j,
      SimpleSocket_ctor os this domain service protocol
                        (port + 65536 * k) (interface + 4294967296 * j) h
      = (t, Ret (o, h'))).
Proof.
  rewrite SimpleSocket_ctor_eq. cbv zeta.
  destruct (socket_ret os <? 0) eqn:Hs; [discriminate|].
  intros [= <- <- <-]. apply Z.ltb_ge in Hs.
  unfold get_address, get_sock, ctor_address.
  cbn [address sock connection sin_family sin_port sin_addr sin_zero].
  repeat (split; [first [reflexivity | exact Hs | apply mem_u16_htons | apply mem_u32_htonl]|]).
  intros k j. rewrite SimpleSocket_ctor_eq. cbv zeta.
  rewrite (proj2 (Z.ltb_ge _ _) Hs). unfold ctor_address, htons, htonl. cbv zeta.
  rewrite (Z.mul_comm 65536 k), (Z.mul_comm 4294967296 j), !Z_mod_plus_full.
  reflexivity.
Qed.

Lemma X2_address_in_network_order_witness :
  SimpleSocket_ctor os_ok (bs_base (ls_base raw_zero)) AF_INET SOCK_STREAM 0 68536 0 ∅
  = ([EvSocket AF_INET SOCK_STREAM 0 3], Ret (mk_SimpleSocket addr_3000 3 0, ∅)) /\
  mem_u16 (host os_ok) (sin_port (get_address (mk_SimpleSocket addr_3000 3 0)))
  = [68536 mod 65536 / 256; 68536 mod 256].
Proof.
  assert (H : SimpleSocket_ctor os_ok (bs_base (ls_base raw_zero))
                AF_INET SOCK_STREAM 0 68536 0 ∅
              = ([EvSocket AF_INET SOCK_STREAM 0 3],
                 Ret (mk_SimpleSocket addr_3000 3 0, ∅))) by reflexivity.
  split; [exact H|].
  destruct (X2_address_in_network_order _ _ _ _ _ _ _ _ _ _ _ H)
    as (_ & _ & _ & _ & _ & Hport & _).
  exact Hport.
Defined.

(** ** Values the constructors leave unassigned *)

Lemma acceptor_ignores_new_socket c this x h :
  acceptor c (set_new_socket x this) h = acceptor c this h.
Proof. reflexivity. Qed.

Lemma launch_ignores_new_socket c conns this x h :
  launch (c :: conns) (set_new_socket x this) h = launch (c :: conns) this h.
Proof.
  cbn [launch]. unfold launch_body, cout. rewrite !bind_assoc, !bind_emit_prepend.
  rewrite !bind_assoc. unfold bind at 1 3. rewrite acceptor_ignores_new_socket. reflexivity.
Qed.

Lemma SimpleServer_ctor_same_setup os os' domain service protocol port interface bcklg h :
  same_setup os os' ->
  SimpleServer_ctor os domain service protocol port interface bcklg h
  = SimpleServer_ctor os' domain service protocol port interface bcklg h.
Proof.
  intros (Hh & Hs & Hb & Hl & Hn & Hbind & Hz).
  unfold SimpleServer_ctor, bind. rewrite !ListeningSocket_ctor_eq. cbv zeta.
  unfold ctor_address. rewrite Hh, Hs, Hb, Hl, Hn, Hbind, Hz. reflexivity.
Qed.

(** X3.  Of all the indeterminate values the constructors start from, the
    run of the server reads two: the slot of [binding], which the fatal
    check after [bind] tests, and the padding of the address structure,
    which goes to [bind] and [accept] as part of the address.  Two
    environments that agree on these and on what the system returns give
    the same trace, whatever else the fresh storage held ([connection],
    [listening], [backlog], the descriptor, the address fields) and whatever
    [new_socket] held; once a first connection attempt has been made, the
    whole result of the run is the same. *)
Theorem X3_only_binding_and_padding_are_read os os' conns :
  same_setup os os' ->
  trace (run os conns) = trace (run os' conns) /\
  (conns <> [] -> run os conns = run os' conns).
Proof.
  intros Hsame. unfold run, TestServer_ctor. cbv zeta.
  unfold bind.
  rewrite (SimpleServer_ctor_same_setup os os' _ _ _ _ _ _ _ Hsame).
  destruct (SimpleServer_ctor os' AF_INET SOCK_STREAM 0 3000 INADDR_ANY 10 ∅)
    as [t1 [[base h1]|code|f]]; [|split; reflexivity|split; reflexivity].
  unfold set_buffer. cbn [ts_base buffer new_socket].
  destruct conns as [|c conns].
  - split; [reflexivity | congruence].
  - pose proof (launch_ignores_new_socket c conns
                  (mk_TestServer base
                     (memset (replicate (Z.to_nat BUFFER_SIZE) x00) x00 BUFFER_SIZE)
                     (raw_new_socket os'))
                  (raw_new_socket os) h1) as Heq.
    unfold set_new_socket in Heq. cbn [ts_base buffer] in Heq. rewrite Heq.
    split; reflexivity.
Qed.

Lemma X3_only_binding_and_padding_are_read_witness :
  same_setup os_ok os_other /\
  raw_storage os_ok <> raw_storage os_other /\
  raw_new_socket os_ok <> raw_new_socket os_other /\
  run os_ok [conn_hi] = run os_other [conn_hi].
Proof.
  assert (Hsame : same_setup os_ok os_other) by (repeat split).
  split; [exact Hsame|]. split; [discriminate|]. split; [discriminate|].
  apply (X3_only_binding_and_padding_are_read os_ok os_other [conn_hi] Hsame).
  discriminate.
Defined.

(** ** What a request leaves behind *)

Lemma strlen_until_nul data k :
  strlen (data ++ replicate (S k) x00) = Some (length (until_nul data)) /\
  take (length (until_nul data)) (data ++ replicate (S k) x00) = until_nul data.
Proof.
  induction data as [|b data [IH1 IH2]]; [split; reflexivity|].
  cbn [app strlen until_nul]. destruct (Byte.eqb b x00).
  - split; reflexivity.
  - rewrite IH1. cbn [length take fmap option_fmap option_map]. rewrite IH2.
    split; reflexivity.
Qed.

Lemma until_nul_length data : (length (until_nul data) <= length data)%nat.
Proof.
  induction data as [|b data IH]; [reflexivity|].
  cbn [until_nul]. destruct (Byte.eqb b x00); cbn [length]; lia.
Qed.

Lemma buffer_with_strlen data :
  (length data < Z.to_nat BUFFER_SIZE)%nat ->
  strlen (buffer_with data) = Some (length (until_nul data)) /\
  take (length (until_nul data)) (buffer_with data) = until_nul data.
Proof.
  intros Hlen. unfold buffer_with.
  destruct (Z.to_nat BUFFER_SIZE - length data)%nat as [|k] eqn:Hk; [lia|].
  apply strlen_until_nul.
Qed.

(** X4.  A client sends [data], at least one byte and fewer than 30000.
    The accept stage returns, and the handle stage then reports the request
    as a C string: it prints the bytes of [data] in front of its first NUL
    byte, with their count, and nothing of what follows that NUL.  When
    [data] begins with a NUL byte it reports an empty request although bytes
    were read.  The count never exceeds the number of bytes read, so the
    handle stage does not look past the terminating NUL the accept stage
    stored, and it leaves the server and the heap as they are. *)
Theorem X4_handler_prints_up_to_first_nul c this h data :
  wf this h ->
  0 <= accept_ret c ->
  recv_res c = RecvData data ->
  (0 < length data < Z.to_nat BUFFER_SIZE)%nat ->
  exists ta this1,
    acceptor c this h = (ta, Ret (this1, h)) /\
    strlen (buffer this1) = Some (length (until_nul data)) /\
    (length (until_nul data) <= length data)%nat /\
    handler this1 h = (request_lines data, Ret (this1, h)).
Proof.
  intros (Hlen & _ & [ls Hls]) Hfd Hres Hdata.
  rewrite (acceptor_data c this h ls data Hls Hlen Hfd Hres Hdata).
  destruct (buffer_with_strlen data ltac:(lia)) as [Hn Htake].
  eexists _, _. split; [reflexivity|]. cbn [buffer].
  split; [exact Hn|]. split; [apply until_nul_length|].
  rewrite (handler_eq (mk_TestServer (ts_base this) (buffer_with data) (accept_ret c))
             h _ Hn).
  cbn [buffer]. f_equal.
  unfold handle_trace, request_lines. rewrite Htake.
  destruct (until_nul data) as [|b text]; reflexivity.
Qed.

Lemma X4_handler_prints_up_to_first_nul_witness :
  wf (initial_server os_ok) (initial_heap os_ok) /\
  0 <= accept_ret conn_nul /\
  recv_res conn_nul = RecvData [x61; x00; x62] /\
  (0 < length [x61; x00; x62] < Z.to_nat BUFFER_SIZE)%nat /\
  request_lines [x61; x00; x62]
  = [EvCout [OStr (LF ++ "Received Request (")%string; OInt 1; OStr " bytes):"; OEndl];
     EvCout [OStr "--- Begin Request ---"; OEndl];
     EvCout [OBytes [x61]; OEndl];
     EvCout [OStr "--- End Request ---"; OEndl]] /\
  exists ta this1,
    acceptor conn_nul (initial_server os_ok) (initial_heap os_ok)
    = (ta, Ret (this1, initial_heap os_ok)) /\
    handler this1 (initial_heap os_ok)
    = (request_lines [x61; x00; x62], Ret (this1, initial_heap os_ok)).
Proof.
  assert (H1 : 0 <= accept_ret conn_nul) by (vm_compute; discriminate).
  assert (H2 : (0 < length [x61; x00; x62] < Z.to_nat BUFFER_SIZE)%nat)
    by (cbn [length]; unfold BUFFER_SIZE; lia).
  split; [exact (initial_wf os_ok)|]. split; [exact H1|]. split; [reflexivity|].
  split; [exact H2|]. split; [reflexivity|].
  destruct (X4_handler_prints_up_to_first_nul conn_nul (initial_server os_ok)
              (initial_heap os_ok) [x61; x00; x62] (initial_wf os_ok) H1 eq_refl H2)
    as (ta & this1 & Ha & _ & _ & Hh).
  exists ta, this1. split; [exact Ha | exact Hh].
Defined.

(** X5.  In the same situation the accept stage logs the number of bytes
    read and then writes a hex dump of the first 50 bytes of [data], or of
    all of them when there are fewer: one [printf] for each of these bytes,
    in order, and none for any byte beyond the fiftieth or beyond the data. *)
Theorem X5_hex_dump_first_50_bytes c this h ls data :
  h !! get_socket (ts_base this) = Some ls ->
  length (buffer this) = Z.to_nat BUFFER_SIZE ->
  0 <= accept_ret c ->
  recv_res c = RecvData data ->
  (0 < length data < Z.to_nat BUFFER_SIZE)%nat ->
  trace (acceptor c this h)
  = accept_events ls c ++ read_events c (buffer this)
      ++ [EvCout [OStr "Bytes read: "; OInt (Z.of_nat (length data)); OEndl];
          EvCout [OStr "Raw received data (hex):"; OEndl]]
      ++ map EvPrintfHex (take 50 data)
      ++ [EvCout [OEndl]] /\
  length (take 50 data) = (length data `min` 50)%nat.
Proof.
  intros Hls Hlen Hfd Hres Hdata.
  rewrite (acceptor_data c this h ls data Hls Hlen Hfd Hres Hdata).
  cbn [trace fst]. unfold hex_events, buffer_with. split.
  - do 5 f_equal.
    replace (Z.to_nat (Z.min (Z.of_nat (length data)) 50))
      with (length data `min` 50)%nat by lia.
    rewrite take_app_le by lia.
    destruct (Nat.le_gt_cases (length data) 50) as [Hle|Hgt].
    + rewrite Nat.min_l by lia. rewrite !take_ge by lia. reflexivity.
    + rewrite Nat.min_r by lia. reflexivity.
  - rewrite length_take. lia.
Qed.

Lemma X5_hex_dump_first_50_bytes_witness :
  initial_heap os_ok !! get_socket (ts_base (initial_server os_ok)) = Some (server_object os_ok) /\
  length (buffer (initial_server os_ok)) = Z.to_nat BUFFER_SIZE /\
  0 <= accept_ret conn_hi /\
  recv_res conn_hi = RecvData [x68; x69] /\
  (0 < length [x68; x69] < Z.to_nat BUFFER_SIZE)%nat /\
  length (take 50 [x68; x69]) = (length [x68; x69] `min` 50)%nat.
Proof.
  assert (H1 : initial_heap os_ok !! get_socket (ts_base (initial_server os_ok))
               = Some (server_object os_ok)) by apply lookup_singleton_eq.
  assert (H3 : 0 <= accept_ret conn_hi) by (vm_compute; discriminate).
  assert (H5 : (0 < length [x68; x69] < Z.to_nat BUFFER_SIZE)%nat)
    by (cbn [length]; unfold BUFFER_SIZE; lia).
  split; [exact H1|]. split; [exact zeros_length|]. split; [exact H3|].
  split; [reflexivity|]. split; [exact H5|].
  exact (proj2 (X5_hex_dump_first_50_bytes conn_hi (initial_server os_ok) (initial_heap os_ok)
                  (server_object os_ok) [x68; x69] H1 zeros_length H3 eq_refl H5)).
Defined.

(** ** Isolation of connections *)

Lemma acceptor_bad_pointer c this h :
  h !! get_socket (ts_base this) = None ->
  acceptor c this h = ([], Fault (BadPointer (get_socket (ts_base this)))).
Proof.
  intros Hp. unfold acceptor. apply bind_Fault. unfold deref. rewrite Hp. reflexivity.
Qed.

(** X6.  After a successful [accept] nothing of the server's earlier
    per-connection state matters.  Two servers with buffers of the declared
    size that point to the same listening socket, whatever their buffers
    and [new_socket] hold, go through the iteration for a connection that
    is accepted in the same way: same system calls, same output, same
    resulting state. *)
Theorem X6_accepted_connection_independent_of_history c this1 this2 h :
  length (buffer this1) = Z.to_nat BUFFER_SIZE ->
  length (buffer this2) = Z.to_nat BUFFER_SIZE ->
  ts_base this1 = ts_base this2 ->
  0 <= accept_ret c ->
  launch_body c this1 h = launch_body c this2 h.
Proof.
  intros Hlen1 Hlen2 Hbase Hfd.
  assert (Hacc : acceptor c this1 h = acceptor c this2 h).
  { destruct (h !! get_socket (ts_base this1)) as [ls|] eqn:Hls.
    - rewrite (acceptor_eq c this1 h ls Hls).
      rewrite Hbase in Hls. rewrite (acceptor_eq c this2 h ls Hls). cbv zeta.
      unfold read_events. rewrite (memset_zeros _ Hlen1), (memset_zeros _ Hlen2), Hbase.
      rewrite (proj2 (Z.ltb_ge _ _) Hfd). reflexivity.
    - rewrite (acceptor_bad_pointer c this1 h Hls).
      rewrite Hbase in Hls. rewrite (acceptor_bad_pointer c this2 h Hls), Hbase.
      reflexivity. }
  unfold launch_body, cout. rewrite !bind_emit_prepend. f_equal.
  unfold bind. rewrite Hacc. reflexivity.
Qed.

Lemma X6_accepted_connection_independent_of_history_witness :
  length (buffer (initial_server os_ok)) = Z.to_nat BUFFER_SIZE /\
  length (buffer server_after_hi) = Z.to_nat BUFFER_SIZE /\
  ts_base (initial_server os_ok) = ts_base server_after_hi /\
  0 <= accept_ret conn_nul /\
  launch_body conn_nul (initial_server os_ok) (initial_heap os_ok)
  = launch_body conn_nul server_after_hi (initial_heap os_ok).
Proof.
  assert (H2 : length (buffer server_after_hi) = Z.to_nat BUFFER_SIZE).
  { cbn [buffer server_after_hi]. unfold buffer_with.
    rewrite length_app, length_replicate. cbn [length]. unfold BUFFER_SIZE. lia. }
  assert (H4 : 0 <= accept_ret conn_nul) by (vm_compute; discriminate).
  split; [exact zeros_length|]. split; [exact H2|]. split; [reflexivity|].
  split; [exact H4|].
  exact (X6_accepted_connection_independent_of_history conn_nul (initial_server os_ok)
           server_after_hi (initial_heap os_ok) zeros_length H2 eq_refl H4).
Defined.

(** ** Descriptors *)

Lemma acceptor_conn c this h ls :
  h !! get_socket (ts_base this) = Some ls ->
  sat (conn_event ls c)
      (fun this' h' =>
         new_socket this' = accept_ret c /\ ts_base this' = ts_base this /\ h' = h)
      (acceptor c this h).
Proof.
  intros Hls. unfold acceptor. unfold_calls.
  repeat sat_step; cbn [conn_event new_socket ts_base]; simplify_eq; auto.
  apply Forall_forall. intros e He.
  apply list_elem_of_In, in_map_iff in He as (b & <- & _). exact I.
Qed.

Lemma conn_event_respond ls c e : In e (respond_trace c (accept_ret c)) -> conn_event ls c e.
Proof.
  unfold respond_trace, sent_line. cbn [In].
  destruct (send_ret c <? 0); intros [<-|[<-|[<-|[<-|[]]]]]; cbn [conn_event]; auto.
Qed.

Lemma launch_body_conn c this h ls :
  h !! get_socket (ts_base this) = Some ls ->
  sat (conn_event ls c)
      (fun this' h' => ts_base this' = ts_base this /\ h' = h)
      (launch_body c this h).
Proof.
  intros Hls. unfold launch_body, cout.
  apply sat_bind, sat_emit; [exact I|].
  apply sat_bind. eapply sat_mono; [| |apply (acceptor_conn _ _ _ _ Hls)]; [auto|].
  intros this1 h1 (Hfd & Hbase & ->). cbv beta.
  apply sat_bind. eapply sat_mono; [| |apply (handler_sat (conn_event ls c))];
    [auto | | intros; exact I].
  intros this2 h2 (-> & ->). cbv beta.
  apply sat_bind. eapply sat_mono; [| |apply (responder_sat (conn_event ls c))];
    [auto | | rewrite Hfd; apply conn_event_respond].
  intros this3 h3 (-> & ->). cbv beta.
  apply sat_bind, sat_emit; [exact I|]. apply sat_ret. split; [exact Hbase | reflexivity].
Qed.



(** ** Counting calls *)

Lemma count_events_app p t1 t2 :
  count_events p (t1 ++ t2) = (count_events p t1 + count_events p t2)%nat.
Proof. induction t1 as [|e t1 IH]; cbn [app count_events]; lia. Qed.

Lemma count_events_none p t :
  Forall (fun e => p e = false) t -> count_events p t = 0%nat.
Proof.
  induction 1 as [|e t He _ IH]; [reflexivity|]. cbn [count_events]. rewrite He, IH.
  reflexivity.
Qed.

Lemma count_events_hex p l :
  (forall b, p (EvPrintfHex b) = false) -> count_events p (map EvPrintfHex l) = 0%nat.
Proof.
  intros Hp. apply count_events_none, Forall_forall. intros e He.
  apply list_elem_of_In, in_map_iff in He as (b & <- & _). apply Hp.
Qed.

Lemma count_events_handle p buf n :
  (forall line, p (EvCout line) = false) -> count_events p (handle_trace buf n) = 0%nat.
Proof.
  intros Hp. unfold handle_trace.
  destruct (0 <? Z.of_nat n); cbn [count_events]; rewrite !Hp; reflexivity.
Qed.

Lemma count_events_respond c fd :
  count_events is_accept (respond_trace c fd) = 0%nat /\
  count_events is_send (respond_trace c fd) = 1%nat /\
  count_events is_close (respond_trace c fd) = 1%nat.
Proof.
  unfold respond_trace, sent_line. destruct (send_ret c <? 0); repeat split.
Qed.

(** How often one completed iteration calls [accept], [send] and [close]. *)
Lemma launch_body_counts c this h t this1 h1 :
  wf this h ->
  launch_body c this h = (t, Ret (this1, h1)) ->
  count_events is_accept t = 1%nat /\
  count_events is_send t = 1%nat /\
  count_events is_close t
  = if (0 <=? accept_ret c) && (recv_count c 30000 <=? 0) then 2%nat else 1%nat.
Proof.
  intros Hwf Hrun.
  destruct (launch_body_wf c this h Hwf)
    as [(ta & this' & n' & Ha & _ & _ & _ & _ & _ & _ & Hb) | (ta & _ & _ & _ & Hb)];
    rewrite Hb in Hrun; [|discriminate].
  apply (f_equal fst) in Hrun. cbn [fst] in Hrun. subst t.
  destruct Hwf as (Hlen & _ & [ls Hls]).
  assert (Hta : trace (acceptor c this h) = ta) by (rewrite Ha; reflexivity).
  rewrite (acceptor_eq _ _ _ _ Hls) in Hta. cbv zeta in Hta.
  destruct (count_events_respond c (accept_ret c)) as (Hr1 & Hr2 & Hr3).
  change (waiting_line :: ta ++ handle_trace (buffer this') n'
            ++ respond_trace c (accept_ret c) ++ [handled_line])
    with ([waiting_line] ++ ta ++ handle_trace (buffer this') n'
            ++ respond_trace c (accept_ret c) ++ [handled_line]).
  rewrite !count_events_app, !count_events_handle, Hr1, Hr2, Hr3 by reflexivity.
  destruct (accept_ret c <? 0) eqn:Hfd.
  { apply Z.ltb_lt in Hfd. rewrite (proj2 (Z.leb_gt _ _) Hfd).
    cbn [trace fst] in Hta. subst ta. repeat split. }
  apply Z.ltb_ge in Hfd. rewrite (proj2 (Z.leb_le _ _) Hfd). cbn [andb].
  destruct (recv_count c 30000 <? 0) eqn:Hneg.
  { apply Z.ltb_lt in Hneg. rewrite (proj2 (Z.leb_le _ _)) by lia.
    cbn [trace fst] in Hta. subst ta. repeat split. }
  apply Z.ltb_ge in Hneg.
  destruct (recv_count c 30000 =? 0) eqn:Hzero.
  { apply Z.eqb_eq in Hzero. rewrite (proj2 (Z.leb_le _ _)) by lia.
    cbn [trace fst] in Hta. subst ta. repeat split. }
  apply Z.eqb_neq in Hzero. rewrite (proj2 (Z.leb_gt _ _)) by lia.
  destruct (recv_count c 30000 <? _) eqn:Hlt; cbn [trace fst] in Hta; subst ta.
  - unfold hex_events. rewrite !count_events_app, !count_events_hex by reflexivity.
    repeat split.
  - rewrite (acceptor_eq _ _ _ _ Hls) in Ha. cbv zeta in Ha.
    rewrite (proj2 (Z.ltb_ge _ _) Hfd), (proj2 (Z.ltb_ge _ _) Hneg),
      (proj2 (Z.eqb_neq _ _) Hzero), Hlt in Ha. discriminate.
Qed.





(** ** The loop as a whole *)

Lemma launch_returns conns this h :
  wf this h ->
  Forall (fun c => ~ full_read c) conns ->
  exists t this1, launch conns this h = (t, Ret (this1, h)) /\ wf this1 h.
Proof.
  revert this. induction conns as [|c conns IH]; intros this Hwf Hall.
  - eexists _, _. split; [reflexivity | exact Hwf].
  - apply Forall_cons in Hall as [Hc Hall].
    destruct (launch_body_wf c this h Hwf)
      as [(ta & this1 & n1 & _ & Hwf1 & _ & _ & _ & _ & _ & Hb)
         | (ta & _ & Hfd & Hfull & Hb)].
    + rewrite (launch_cons _ _ _ _ _ _ _ Hb).
      destruct (IH this1 Hwf1 Hall) as (t & this2 & -> & Hwf2).
      eexists _, _. split; [reflexivity | exact Hwf2].
    + destruct Hc. split; assumption.
Qed.

(** X9.  Take the system calls as they are modelled here: each returns
    to the caller and reports failure by its result.  Once start-up has
    passed, and as long as no read returns 30000 bytes, no failure during a
    connection ends the run: after failed accepts, failed or empty reads
    and failed sends the loop goes on, and the run over any sequence of
    connection attempts returns in a state that satisfies the invariant of
    the loop, ready for the next attempt. *)
Theorem X9_loop_survives_connection_failures os conns :
  setup_passes os = true ->
  Forall (fun c => ~ full_read c) conns ->
  exists t this h, run os conns = (t, Ret (this, h)) /\ wf this h.
Proof.
  intros Hp Hall. rewrite (run_ok _ _ Hp).
  destruct (launch_returns conns (initial_server os) (initial_heap os) (initial_wf os) Hall)
    as (t & this1 & -> & Hwf1).
  eexists _, _, _. split; [reflexivity | exact Hwf1].
Qed.

Lemma X9_loop_survives_connection_failures_witness :
  setup_passes os_ok = true /\
  Forall (fun c => ~ full_read c) [conn_accept_fails; conn_silent; conn_hi] /\
  exists t this h,
    run os_ok [conn_accept_fails; conn_silent; conn_hi] = (t, Ret (this, h)) /\ wf this h.
Proof.
  assert (Hall : Forall (fun c => ~ full_read c) [conn_accept_fails; conn_silent; conn_hi]).
  { repeat constructor; intros [_ H]; vm_compute in H; discriminate. }
  split; [reflexivity|]. split; [exact Hall|].
  exact (X9_loop_survives_connection_failures os_ok
           [conn_accept_fails; conn_silent; conn_hi] eq_refl Hall).
Defined.

Lemma launch_counts conns this h t this1 h1 :
  wf this h ->
  launch conns this h = (t, Ret (this1, h1)) ->
  count_events is_accept t = length conns /\ count_events is_send t = length conns.
Proof.
  revert this t. induction conns as [|c conns IH]; intros this t Hwf Hrun.
  - cbn [launch] in Hrun. injection Hrun as <- _ _. split; reflexivity.
  - destruct (launch_body_wf c this h Hwf)
      as [(ta & this' & n' & _ & Hwf' & _ & _ & _ & _ & _ & Hb) | (ta & _ & _ & _ & Hb)].
    + destruct (launch_body_counts _ _ _ _ _ _ Hwf Hb) as (Ha & Hs & _).
      rewrite (launch_cons _ _ _ _ _ _ _ Hb) in Hrun.
      destruct (launch conns this' h) as [tc oc] eqn:Hc.
      unfold prepend in Hrun. cbn [fst snd] in Hrun.
      apply (f_equal fst) in Hrun as Ht. cbn [fst] in Ht.
      apply (f_equal snd) in Hrun. cbn [snd] in Hrun. subst t oc.
      destruct (IH _ _ Hwf' Hc) as (IHa & IHs).
      rewrite !count_events_app, Ha, Hs, IHa, IHs. split; reflexivity.
    + cbn [launch] in Hrun. rewrite (bind_Fault _ _ _ _ _ Hb) in Hrun. discriminate.
Qed.

(** X10.  In a run that returns, every connection attempt got exactly one
    [accept] call and exactly one [send] of the response: the trace holds
    as many [accept] calls, and as many [send] calls, as there were
    attempts, whether or not the attempts succeeded. *)
Theorem X10_one_accept_and_one_send_per_attempt os conns t this h :
  run os conns = (t, Ret (this, h)) ->
  count_events is_accept t = length conns /\
  count_events is_send t = length conns.
Proof.
  intros Hrun.
  destruct (run_Ret _ _ _ _ _ Hrun) as (_ & _ & _ & _ & tl & Hl & ->).
  destruct (launch_counts _ _ _ _ _ _ (initial_wf os) Hl) as (Ha & Hs).
  rewrite !count_events_app, Ha, Hs. split; reflexivity.
Qed.

Lemma X10_one_accept_and_one_send_per_attempt_witness :
  run os_ok [conn_hi]
  = (trace (run os_ok [conn_hi]), Ret (server_after_hi, initial_heap os_ok)) /\
  count_events is_accept (trace (run os_ok [conn_hi])) = length [conn_hi] /\
  count_events is_send (trace (run os_ok [conn_hi])) = length [conn_hi].
Proof.
  assert (Hrun : run os_ok [conn_hi]
                 = (trace (run os_ok [conn_hi]), Ret (server_after_hi, initial_heap os_ok))).
  { rewrite (surjective_run (run os_ok [conn_hi])) at 1. rewrite run_hi. reflexivity. }
  split; [exact Hrun|].
  exact (X10_one_accept_and_one_send_per_attempt os_ok [conn_hi] _ _ _ Hrun).
Defined.

(** ** What the handle stage sees after a failure *)

(** X11.  After a successful [accept] whose read fails or finds the peer
    gone, the buffer the handle stage sees is the cleared one: it reports an
    empty request.  After a failed [accept] the accept stage has touched
    nothing but [new_socket], so the handle stage sees the buffer as the
    previous iteration left it and writes exactly what it would have
    written before the attempt. *)
Theorem X11_handler_after_failure c this h :
  wf this h ->
  (0 <= accept_ret c -> recv_count c 30000 <= 0 ->
   exists ta this1,
     acceptor c this h = (ta, Ret (this1, h)) /\
     buffer this1 = replicate (Z.to_nat BUFFER_SIZE) x00 /\
     handler this1 h = ([EvCout [OStr "Empty request received"; OEndl]], Ret (this1, h))) /\
  (accept_ret c < 0 ->
   exists ta,
     acceptor c this h = (ta, Ret (set_new_socket (accept_ret c) this, h)) /\
     buffer (set_new_socket (accept_ret c) this) = buffer this /\
     trace (handler (set_new_socket (accept_ret c) this) h) = trace (handler this h)).
Proof.
  intros (Hlen & Hnul & [ls Hls]). split.
  - intros Hfd Hn. rewrite (acceptor_eq _ _ _ _ Hls). cbv zeta.
    rewrite (proj2 (Z.ltb_ge _ _) Hfd), (memset_zeros _ Hlen), recv_buffer_nothing by exact Hn.
    assert (Hh : forall fd, handler (mk_TestServer (ts_base this) zeros fd) h
                 = ([EvCout [OStr "Empty request received"; OEndl]],
                    Ret (mk_TestServer (ts_base this) zeros fd, h))).
    { intros fd. rewrite (handler_eq _ _ 0%nat) by exact strlen_zeros. reflexivity. }
    destruct (recv_count c 30000 <? 0) eqn:Hneg;
      [|destruct (recv_count c 30000 =? 0) eqn:Hz].
    + eexists _, _. split; [reflexivity|]. split; [reflexivity | apply Hh].
    + eexists _, _. split; [reflexivity|]. split; [reflexivity | apply Hh].
    + apply Z.eqb_neq in Hz. apply Z.ltb_ge in Hneg. lia.
  - intros Hfd. rewrite (acceptor_eq _ _ _ _ Hls). cbv zeta.
    rewrite (proj2 (Z.ltb_lt _ _) Hfd).
    eexists. split; [reflexivity|]. split; [reflexivity|].
    destruct Hnul as [n Hn].
    rewrite (handler_eq this h n Hn), (handler_eq (set_new_socket (accept_ret c) this) h n Hn).
    reflexivity.
Qed.

Lemma X11_handler_after_failure_witness :
  wf (initial_server os_ok) (initial_heap os_ok) /\
  0 <= accept_ret conn_silent /\
  recv_count conn_silent 30000 <= 0 /\
  exists ta this1,
    acceptor conn_silent (initial_server os_ok) (initial_heap os_ok)
    = (ta, Ret (this1, initial_heap os_ok)) /\
    handler this1 (initial_heap os_ok)
    = ([EvCout [OStr "Empty request received"; OEndl]], Ret (this1, initial_heap os_ok)).
Proof.
  assert (H1 : 0 <= accept_ret conn_silent) by (vm_compute; discriminate).
  assert (H2 : recv_count conn_silent 30000 <= 0) by (vm_compute; discriminate).
  split; [exact (initial_wf os_ok)|]. split; [exact H1|]. split; [exact H2|].
  destruct (proj1 (X11_handler_after_failure conn_silent (initial_server os_ok)
                     (initial_heap os_ok) (initial_wf os_ok)) H1 H2)
    as (ta & this1 & Ha & _ & Hh).
  exists ta, this1. split; [exact Ha | exact Hh].
Defined.

(** ** One descriptor, one address *)

Lemma launch_listening_calls conns this h ls :
  h !! get_socket (ts_base this) = Some ls ->
  Forall (listening_call (sock (bs_base (ls_base ls))) (address (bs_base (ls_base ls))))
         (trace (launch conns this h)).
Proof.
  revert this. induction conns as [|c conns IH]; intros this Hls; cbn [launch].
  - constructor.
  - rewrite trace_bind. destruct (launch_body_conn c this h ls Hls) as [Ht Hq].
    apply Forall_app. split.
    + eapply Forall_impl; [exact Ht|]. intros [] He; cbn [conn_event listening_call] in *;
        try exact I; try contradiction. destruct He as (-> & -> & _). split; reflexivity.
    + destruct (outcome (launch_body c this h)) as [[this1 h1]|code|f]; [|constructor..].
      destruct Hq as (Hbase & ->). apply IH. rewrite Hbase. exact Hls.
Qed.

(** X12.  Start-up and the loop work on one descriptor and one address:
    in every run [bind], [listen] and every [accept] are called on the
    descriptor [socket] returned, and every [accept] is passed the address
    structure that was passed to [bind]. *)
Theorem X12_one_descriptor_one_address os conns :
  Forall (listening_call (socket_ret os)
            (ctor_address os (bs_base (ls_base (raw_storage os))) AF_INET 3000 INADDR_ANY))
         (trace (run os conns)).
Proof.
  destruct (setup_passes os) eqn:Hp.
  - rewrite (run_ok _ _ Hp), trace_prepend. apply Forall_app. split.
    + repeat constructor.
    + apply (launch_listening_calls conns (initial_server os) (initial_heap os)
               (server_object os)).
      apply lookup_singleton_eq.
  - destruct (run_exit os conns Hp) as (pre & -> & [suf Hsuf] & _).
    cbn [trace fst]. apply Forall_app. split; [|repeat constructor].
    assert (Hall : Forall (listening_call (socket_ret os)
                             (ctor_address os (bs_base (ls_base (raw_storage os)))
                                AF_INET 3000 INADDR_ANY))
                          (server_setup_trace os)) by (repeat constructor).
    rewrite Hsuf in Hall. apply Forall_app in Hall as [Hpre _]. exact Hpre.
Qed.
